(** * canvasapi: resource wrappers of Course and AppointmentGroup

    A shallow embedding of [pycanvas/course.py] and
    [canvasapi/appointment_group.py].  Python objects live in a heap of
    attribute maps, the HTTP requester is an oracle whose round trips are
    logged, and every method is a computation in a state-and-exception
    monad over that world. *)

From stdpp Require Import gmap strings list fin_maps.

Open Scope string_scope.
Open Scope list_scope.
Open Scope nat_scope.

(** ** Python values

    Decoded JSON bodies, method arguments and attribute values.  JSON
    numbers are kept as integers; dictionary keys are strings, as they are in
    JSON objects and in [**kwargs]. *)

#[warnings="-register-all"]
Inductive value : Type :=
| VNone
| VBool (b : bool)
| VInt (z : Z)
| VStr (s : string)
| VList (l : list value)
| VDict (d : gmap string value).

(** Python truthiness, as used by [if response.json().get('name'):]. *)
Definition truthy (v : value) : bool :=
  match v with
  | VNone => false
  | VBool b => b
  | VInt z => negb (z =? 0)%Z
  | VStr s => negb (String.eqb s "")
  | VList l => match l with [] => false | _ => true end
  | VDict d => negb (bool_decide (d = ∅))
  end.

(** [isinstance(x, dict) and key in x], the guard of the mutating methods. *)
Definition has_required_key (key : string) (arg : value) : bool :=
  match arg with
  | VDict d => bool_decide (is_Some (d !! key))
  | _ => false
  end.

(** A [%]-formatted string, kept unevaluated: the template and the values
    substituted for its [%s] (or [{}]) holes, in order. *)
Definition fmt : Type := string * list value.

(** ** The requester

    [self._requester.request(method, path, **params)]: one HTTP round trip.
    The requester is an external collaborator, so the errors it raises, the
    state of the remote server and its answers are left open. *)

Inductive http_method : Type := GET | POST | PUT | DELETE.

Record Request : Type := {
  verb : http_method;
  path : fmt;
  params : gmap string value
}.

(** What the methods read of a response: [response.json()] and the URL of
    the [rel="next"] link, when the response has one. *)
Record Response : Type := {
  json : value;
  next_link : option string
}.

(** The requester class itself (requester.py) is not among the sources: it
    is a parameter of the development.  [respond] is what one round trip
    does to the server and what it gives back, an error or a response. *)
Class Requester : Type := {
  req_error : Type;
  server : Type;
  respond : server -> Request -> (req_error + Response) * server
}.

(** The resource classes the two modules construct. *)
Inductive resource_type : Type :=
| TCourse | TAppointmentGroup | TUser | TEnrollment | TAssignment | TQuiz
| TModule | TExternalTool | TSection | TPage | TCourseNickname.

(** A hydrated resource object: its class and its attributes by name.  All
    objects share the one requester of the world they live in. *)
Record Obj : Type := {
  cls : resource_type;
  attrs : gmap string value
}.

(** Object references are positions in the heap. *)
Definition ref : Type := nat.

Section Model.
Context `{Requester}.

(** ** Exceptions *)

Inductive exn : Type :=
| RequiredFieldMissing (msg : string)
| RequesterError (e : req_error)
| AttributeError (name : string)
| TypeError (msg : string)
| DecodeError.

Inductive result (A : Type) : Type :=
| Ok (a : A)
| Raise (e : exn).

(** ** The world: the log of round trips, the remote server, the heap *)

Record World : Type := {
  trace : list (Request * (req_error + Response));
  remote : server;
  heap : list Obj
}.

Definition M (A : Type) : Type := World -> result A * World.

End Model.

Arguments Ok {_ A} a.
Arguments Raise {_ A} e.

#[global] Instance M_ret `{Requester} : MRet M :=
  fun A a w => (Ok a, w).

#[global] Instance M_bind `{Requester} : MBind M :=
  fun A B f m w =>
    match m w with
    | (Ok a, w') => f a w'
    | (Raise e, w') => (Raise e, w')
    end.

Section Primitives.
Context `{Requester}.

Definition raise {A : Type} (e : exn) : M A := fun w => (Raise e, w).

(** One round trip: the request and its outcome are appended to the trace;
    an error of the requester is raised as it is. *)
Definition request (v : http_method) (p : fmt) (kw : gmap string value) : M Response :=
  fun w =>
    let req := {| verb := v; path := p; params := kw |} in
    let '(out, srv) := respond (remote w) req in
    let w' := {| trace := trace w ++ [(req, out)]; remote := srv; heap := heap w |} in
    match out with
    | inl e => (Raise (RequesterError e), w')
    | inr r => (Ok r, w')
    end.

(** [obj.name]: reading an attribute that was never set raises
    AttributeError. *)
Definition getattr (self : ref) (name : string) : M value :=
  fun w =>
    match heap w !! self with
    | Some o =>
        match attrs o !! name with
        | Some v => (Ok v, w)
        | None => (Raise (AttributeError name), w)
        end
    | None => (Raise (AttributeError name), w)
    end.

(** [body.get(key, dflt)] on a decoded body; only a dict has [get]. *)
Definition py_get (body : value) (key : string) (dflt : value) : M value :=
  match body with
  | VDict d => mret (default dflt (d !! key))
  | _ => raise (AttributeError "get")
  end.

(** [body.update(extra)]: the keys of [extra] override those of [body];
    only a dict has [update]. *)
Definition py_update (body : value) (extra : gmap string value) : M value :=
  match body with
  | VDict d => mret (VDict (extra ∪ d))
  | _ => raise (AttributeError "update")
  end.

(** [key in body]: key membership on a dict, element membership on a list,
    substring on a string, TypeError on what is not a container. *)
Definition py_contains (key : string) (body : value) : M bool :=
  match body with
  | VDict d => mret (bool_decide (is_Some (d !! key)))
  | VList l =>
      mret (existsb (fun x => match x with VStr s => String.eqb s key | _ => false end) l)
  | VStr s => mret (match String.index 0 key s with Some _ => true | None => false end)
  | _ => raise (TypeError "argument is not iterable")
  end.

(** ** CanvasObject *)

(** Modelled from the spec: the base class [CanvasObject] (canvas_object.py)
    is not among the sources.  Hydration gives an object whose attribute set
    is exactly the decoded key set, with no validation, defaulting or
    coercion; [set_attributes] on an existing object sets every decoded key
    and leaves the other attributes alone.  A body that is not a JSON object
    has no items to iterate and raises AttributeError before anything is
    set. *)
Definition set_attributes (self : ref) (body : value) : M () :=
  match body with
  | VDict d =>
      fun w =>
        match heap w !! self with
        | Some o =>
            let o' := {| cls := cls o; attrs := d ∪ attrs o |} in
            (Ok (), {| trace := trace w; remote := remote w; heap := <[self := o']> (heap w) |})
        | None => (Ok (), w)
        end
  | _ => raise (AttributeError "items")
  end.

(** Modelled from the spec: the constructor [cls(requester, body)] of a
    resource class, inherited from the absent [CanvasObject].  The new
    object takes the next free position of the heap. *)
Definition new (c : resource_type) (body : value) : M ref :=
  match body with
  | VDict d =>
      fun w =>
        (Ok (length (heap w)),
         {| trace := trace w; remote := remote w; heap := heap w ++ [{| cls := c; attrs := d |}] |})
  | _ => raise (AttributeError "items")
  end.

End Primitives.

(** ** Helpers of the package that are not among the sources

    [combine_kwargs] of [pycanvas.util] returns the mapping that is splatted
    into the request; the one of [canvasapi.util] returns the value passed as
    [_kwargs].  [Uploader(requester, url, file, **kwargs).start()] is the
    whole body of [Course.upload]. *)
Class Util `{Requester} : Type := {
  pycanvas_combine_kwargs : gmap string value -> gmap string value;
  canvasapi_combine_kwargs : gmap string value -> value;
  Uploader_start : fmt -> value -> gmap string value -> M value
}.

(** ** PaginatedList *)

(** Modelled from the spec: the class [PaginatedList] (paginated_list.py) is
    not among the sources.  A paginated sequence holds the element type to
    construct, the optional fixed mapping merged into every decoded item,
    the expected key of an enveloped body, the pending request or the
    terminal marker, and the constructed objects not yet yielded. *)
Record PaginatedList : Type := {
  element_type : resource_type;
  extra_context : option (gmap string value);
  expected_key : option string;
  current_request : option Request;
  buffered_items : list ref
}.

(** Modelled from the spec: [Construct(element_type, requester, method,
    initial_path, extra_context, query_params)], a new sequence positioned
    before its first element.  It is a plain value: building it touches
    neither the requester nor the heap. *)
Definition Construct (c : resource_type) (v : http_method) (initial_path : fmt)
    (extra : option (gmap string value)) (query_params : gmap string value) : PaginatedList :=
  {| element_type := c;
     extra_context := extra;
     expected_key := None;
     current_request := Some {| verb := v; path := initial_path; params := query_params |};
     buffered_items := [] |}.

(** Modelled from the spec: an item of a page is a JSON object. *)
Definition as_object (v : value) : option (gmap string value) :=
  match v with
  | VDict d => Some d
  | _ => None
  end.

(** Modelled from the spec: a page body is an array of objects, or an
    envelope holding that array under the expected key; any other shape is
    a decode error ([None]). *)
Definition decode_page (key : option string) (body : value) : option (list (gmap string value)) :=
  match body with
  | VList l => mapM as_object l
  | VDict d =>
      match key with
      | Some k =>
          match d !! k with
          | Some (VList l) => mapM as_object l
          | _ => None
          end
      | None => None
      end
  | _ => None
  end.

(** Modelled from the spec: decoded fields ∪ extra_context, the injected
    keys overriding those of the raw item. *)
Definition merge_context (extra : option (gmap string value)) (item : gmap string value)
    : gmap string value :=
  match extra with
  | Some e => e ∪ item
  | None => item
  end.

(** Modelled from the spec: the request for the page a next-link points to;
    the URL is self-contained, the original query parameters are not
    applied again. *)
Definition next_request (v : http_method) (url : string) : Request :=
  {| verb := v; path := (url, []); params := ∅ |}.

(** Modelled from the spec: the sequence with its buffer replaced, as when
    an element is yielded or a page is buffered. *)
Definition with_buffer (seq : PaginatedList) (buf : list ref) : PaginatedList :=
  {| element_type := element_type seq;
     extra_context := extra_context seq;
     expected_key := expected_key seq;
     current_request := current_request seq;
     buffered_items := buf |}.

(** Modelled from the spec: a sequence is terminal once a page has arrived
    with no next-link and its buffered items are drained. *)
Definition terminal (seq : PaginatedList) : Prop :=
  current_request seq = None ∧ buffered_items seq = [].

Section Pagination.
Context `{Requester}.

(** Issuing a request descriptor. *)
Definition send (req : Request) : M Response :=
  request (verb req) (path req) (params req).

(** Modelled from the spec: the objects of one page are constructed and
    buffered in arrival order. *)
Fixpoint construct_all (c : resource_type) (items : list (gmap string value)) : M (list ref) :=
  match items with
  | [] => mret []
  | item :: rest =>
      r ← new c (VDict item);
      rs ← construct_all c rest;
      mret (r :: rs)
  end.

(** Modelled from the spec: one page fetch, steps 1 to 5 of the algorithm.
    One round trip; the body is decoded before anything is constructed, so
    a decode error leaves the heap as it was. *)
Definition fetch_page (seq : PaginatedList) (req : Request) : M PaginatedList :=
  resp ← send req;
  match decode_page (expected_key seq) (json resp) with
  | None => raise DecodeError
  | Some items =>
      objs ← construct_all (element_type seq) (merge_context (extra_context seq) <$> items);
      mret {| element_type := element_type seq;
              extra_context := extra_context seq;
              expected_key := expected_key seq;
              current_request := next_request (verb req) <$> next_link resp;
              buffered_items := objs |}
  end.

(** Modelled from the spec: [Advance()].  A buffered element is returned
    with no I/O; with an empty buffer and a pending request one page is
    fetched, and again while pages arrive empty with a next-link; with an
    empty buffer and no further page the answer is end-of-sequence
    ([Ok None]).  A failed fetch raises and keeps the sequence at the
    pending request.  Fuel bounds the number of fetches of one call;
    [None] is fuel exhaustion. *)
Fixpoint Advance (fuel : nat) (seq : PaginatedList) (w : World)
    : option (result (option ref) * PaginatedList * World) :=
  match buffered_items seq with
  | r :: rest => Some (Ok (Some r), with_buffer seq rest, w)
  | [] =>
      match current_request seq with
      | None => Some (Ok None, seq, w)
      | Some req =>
          match fuel with
          | 0 => None
          | S fuel' =>
              match fetch_page seq req w with
              | (Raise e, w') => Some (Raise e, seq, w')
              | (Ok seq', w') => Advance fuel' seq' w'
              end
          end
      end
  end.

(** Modelled from the spec: [ToFiniteCollection()], the drain that calls
    [Advance()] until end-of-sequence. *)
Fixpoint ToFiniteCollection (fuel : nat) (seq : PaginatedList) (w : World)
    : option (result (list ref) * PaginatedList * World) :=
  match fuel with
  | 0 => None
  | S fuel' =>
      match Advance fuel seq w with
      | None => None
      | Some (Raise e, seq', w') => Some (Raise e, seq', w')
      | Some (Ok None, seq', w') => Some (Ok [], seq', w')
      | Some (Ok (Some r), seq', w') =>
          match ToFiniteCollection fuel' seq' w' with
          | Some (Ok rs, seq'', w'') => Some (Ok (r :: rs), seq'', w'')
          | other => other
          end
      end
  end.

(** Driving [Advance()] [n] more times, keeping every answer. *)
Fixpoint redrive (n fuel : nat) (seq : PaginatedList) (w : World)
    : option (list (result (option ref)) * PaginatedList * World) :=
  match n with
  | 0 => Some ([], seq, w)
  | S n' =>
      match Advance fuel seq w with
      | None => None
      | Some (answer, seq', w') =>
          match redrive n' fuel seq' w' with
          | None => None
          | Some (answers, seq'', w'') => Some (answer :: answers, seq'', w'')
          end
      end
  end.

(** A collection split across server pages: starting from the pending
    request, the server answers each page request with a body that decodes
    to the items of that page, and links to the next page until the last
    one, which has no next-link. *)
Inductive Pending (key : option string)
    : server → option Request → list (list (gmap string value)) → server → Prop :=
| Pending_done (srv : server) : Pending key srv None [] srv
| Pending_page (srv srv' srv'' : server) (req : Request) (resp : Response)
      (items : list (gmap string value)) (rest : list (list (gmap string value))) :
    respond srv req = (inr resp, srv') →
    decode_page key (json resp) = Some items →
    Pending key srv' (next_request (verb req) <$> next_link resp) rest srv'' →
    Pending key srv (Some req) (items :: rest) srv''.

(** The object hydrated from one decoded item of a sequence. *)
Definition hydrated (seq : PaginatedList) (item : gmap string value) : Obj :=
  {| cls := element_type seq; attrs := merge_context (extra_context seq) item |}.

End Pagination.

(** ** pycanvas/course.py *)

Module Course.
Section Methods.
Context `{Util}.

Definition required_name_msg : string := "Dictionary with key 'name' is required.".
Definition required_title_msg : string := "Dictionary with key 'title' is required.".

Definition __str__ (self : ref) : M fmt :=
  id ← getattr self "id";
  course_code ← getattr self "course_code";
  name ← getattr self "name";
  mret ("%s %s %s", [id; course_code; name]).

Definition conclude (self : ref) : M value :=
  id ← getattr self "id";
  response ← request DELETE ("courses/%s", [id])
    {[ "event" := VStr "conclude"; "var" := VStr "blarg" ]};
  py_get (json response) "conclude" VNone.

Definition delete (self : ref) : M value :=
  id ← getattr self "id";
  response ← request DELETE ("courses/%s", [id]) {[ "event" := VStr "delete" ]};
  py_get (json response) "delete" VNone.

Definition update (self : ref) (kwargs : gmap string value) : M value :=
  id ← getattr self "id";
  response ← request PUT ("courses/%s", [id]) (pycanvas_combine_kwargs kwargs);
  name ← py_get (json response) "name" VNone;
  (if truthy name then set_attributes self (json response) else mret ());;
  py_get (json response) "name" VNone.

Definition get_user (self : ref) (user_id user_id_type : value) : M ref :=
  uri ← (if truthy user_id_type
         then id ← getattr self "id";
              mret ("courses/%s/users/%s:%s", [id; user_id_type; user_id])
         else id ← getattr self "id";
              mret ("courses/%s/users/%s", [id; user_id]));
  response ← request GET uri ∅;
  new TUser (json response).

Definition get_users (self : ref) (search_term : value) (kwargs : gmap string value)
    : M PaginatedList :=
  id ← getattr self "id";
  mret (Construct TUser GET ("courses/%s/search_users", [id]) None
          (pycanvas_combine_kwargs kwargs)).

Definition enroll_user (self user : ref) (enrollment_type : value)
    (kwargs : gmap string value) : M ref :=
  user_id ← getattr user "id";
  let kwargs := <["enrollment[user_id]" := user_id]> kwargs in
  let kwargs := <["enrollment[type]" := enrollment_type]> kwargs in
  id ← getattr self "id";
  response ← request POST ("courses/%s/enrollments", [id]) (pycanvas_combine_kwargs kwargs);
  new TEnrollment (json response).

Definition get_recent_students (self : ref) : M PaginatedList :=
  id ← getattr self "id";
  mret (Construct TUser GET ("courses/%s/recent_students", [id]) None ∅).

Definition preview_html (self : ref) (html : value) : M value :=
  id ← getattr self "id";
  response ← request POST ("courses/%s/preview_html", [id]) {[ "html" := html ]};
  py_get (json response) "html" (VStr "").

Definition get_settings (self : ref) : M value :=
  id ← getattr self "id";
  response ← request GET ("courses/%s/settings", [id]) ∅;
  mret (json response).

Definition update_settings (self : ref) (kwargs : gmap string value) : M value :=
  id ← getattr self "id";
  response ← request PUT ("courses/%s/settings", [id]) kwargs;
  mret (json response).

Definition upload (self : ref) (file : value) (kwargs : gmap string value) : M value :=
  id ← getattr self "id";
  Uploader_start ("courses/%s/files", [id]) file kwargs.

Definition reset (self : ref) : M ref :=
  id ← getattr self "id";
  response ← request POST ("courses/%s/reset_content", [id]) ∅;
  new TCourse (json response).

Definition get_enrollments (self : ref) (kwargs : gmap string value) : M PaginatedList :=
  id ← getattr self "id";
  mret (Construct TEnrollment GET ("courses/%s/enrollments", [id]) None
          (pycanvas_combine_kwargs kwargs)).

Definition get_assignment (self : ref) (assignment_id : value) (kwargs : gmap string value)
    : M ref :=
  id ← getattr self "id";
  response ← request GET ("courses/%s/assignments/%s", [id; assignment_id])
    (pycanvas_combine_kwargs kwargs);
  new TAssignment (json response).

Definition get_assignments (self : ref) (kwargs : gmap string value) : M PaginatedList :=
  id ← getattr self "id";
  mret (Construct TAssignment GET ("courses/%s/assignments", [id]) None
          (pycanvas_combine_kwargs kwargs)).

Definition create_assignment (self : ref) (assignment : value) (kwargs : gmap string value)
    : M ref :=
  if has_required_key "name" assignment then
    let kwargs := <["assignment" := assignment]> kwargs in
    id ← getattr self "id";
    response ← request POST ("courses/%s/assignments", [id]) (pycanvas_combine_kwargs kwargs);
    new TAssignment (json response)
  else raise (RequiredFieldMissing required_name_msg).

Definition get_quizzes (self : ref) (kwargs : gmap string value) : M PaginatedList :=
  id ← getattr self "id";
  course_id ← getattr self "id";
  mret (Construct TQuiz GET ("courses/%s/quizzes", [id]) (Some {[ "course_id" := course_id ]})
          (pycanvas_combine_kwargs kwargs)).

Definition get_quiz (self : ref) (quiz_id : value) : M ref :=
  id ← getattr self "id";
  response ← request GET ("courses/%s/quizzes/%s", [id; quiz_id]) ∅;
  let quiz_json := json response in
  course_id ← getattr self "id";
  quiz_json ← py_update quiz_json {[ "course_id" := course_id ]};
  new TQuiz quiz_json.

Definition create_quiz (self : ref) (quiz : value) (kwargs : gmap string value) : M ref :=
  if has_required_key "title" quiz then
    let kwargs := <["quiz" := quiz]> kwargs in
    id ← getattr self "id";
    response ← request POST ("courses/%s/quizzes", [id]) (pycanvas_combine_kwargs kwargs);
    let quiz_json := json response in
    course_id ← getattr self "id";
    quiz_json ← py_update quiz_json {[ "course_id" := course_id ]};
    new TQuiz quiz_json
  else raise (RequiredFieldMissing required_title_msg).

Definition get_modules (self : ref) (kwargs : gmap string value) : M PaginatedList :=
  id ← getattr self "id";
  course_id ← getattr self "id";
  mret (Construct TModule GET ("courses/%s/modules", [id]) (Some {[ "course_id" := course_id ]})
          (pycanvas_combine_kwargs kwargs)).

Definition get_module (self : ref) (module_id : value) (kwargs : gmap string value) : M ref :=
  id ← getattr self "id";
  response ← request GET ("courses/%s/modules/%s", [id; module_id]) ∅;
  let module_json := json response in
  course_id ← getattr self "id";
  module_json ← py_update module_json {[ "course_id" := course_id ]};
  new TModule module_json.

Definition create_module (self : ref) (module : value) (kwargs : gmap string value) : M ref :=
  if has_required_key "name" module then
    let kwargs := <["module" := module]> kwargs in
    id ← getattr self "id";
    response ← request POST ("courses/%s/modules", [id]) (pycanvas_combine_kwargs kwargs);
    let module_json := json response in
    course_id ← getattr self "id";
    module_json ← py_update module_json {[ "course_id" := course_id ]};
    new TModule module_json
  else raise (RequiredFieldMissing required_name_msg).

Definition get_external_tool (self : ref) (tool_id : value) : M ref :=
  id ← getattr self "id";
  response ← request GET ("courses/%s/external_tools/%s", [id; tool_id]) ∅;
  let tool_json := json response in
  course_id ← getattr self "id";
  tool_json ← py_update tool_json {[ "course_id" := course_id ]};
  new TExternalTool tool_json.

Definition get_external_tools (self : ref) (kwargs : gmap string value) : M PaginatedList :=
  id ← getattr self "id";
  course_id ← getattr self "id";
  mret (Construct TExternalTool GET ("courses/%s/external_tools", [id])
          (Some {[ "course_id" := course_id ]}) (pycanvas_combine_kwargs kwargs)).

Definition get_section (self : ref) (section_id : value) : M ref :=
  id ← getattr self "id";
  response ← request GET ("courses/%s/sections/%s", [id; section_id]) ∅;
  new TSection (json response).

Definition show_front_page (self : ref) : M ref :=
  id ← getattr self "id";
  response ← request GET ("courses/%s/front_page", [id]) ∅;
  let page_json := json response in
  course_id ← getattr self "id";
  page_json ← py_update page_json {[ "course_id" := course_id ]};
  new TPage page_json.

Definition edit_front_page (self : ref) (kwargs : gmap string value) : M ref :=
  id ← getattr self "id";
  response ← request PUT ("courses/%s/front_page", [id]) (pycanvas_combine_kwargs kwargs);
  let page_json := json response in
  course_id ← getattr self "id";
  page_json ← py_update page_json {[ "course_id" := course_id ]};
  new TPage page_json.

(** [get_pages] accepts [**kwargs] and does not pass them on. *)
Definition get_pages (self : ref) (kwargs : gmap string value) : M PaginatedList :=
  id ← getattr self "id";
  course_id ← getattr self "id";
  mret (Construct TPage GET ("courses/%s/pages", [id]) (Some {[ "course_id" := course_id ]}) ∅).

Definition create_page (self : ref) (wiki_page : value) (kwargs : gmap string value) : M ref :=
  if has_required_key "title" wiki_page then
    let kwargs := <["wiki_page" := wiki_page]> kwargs in
    id ← getattr self "id";
    response ← request POST ("courses/%s/pages", [id]) (pycanvas_combine_kwargs kwargs);
    let page_json := json response in
    course_id ← getattr self "id";
    page_json ← py_update page_json {[ "course_id" := course_id ]};
    new TPage page_json
  else raise (RequiredFieldMissing required_title_msg).

Definition get_page (self : ref) (url : value) : M ref :=
  id ← getattr self "id";
  response ← request GET ("courses/%s/pages/%s", [id; url]) ∅;
  let page_json := json response in
  course_id ← getattr self "id";
  page_json ← py_update page_json {[ "course_id" := course_id ]};
  new TPage page_json.

Definition list_sections (self : ref) (kwargs : gmap string value) : M PaginatedList :=
  id ← getattr self "id";
  mret (Construct TSection GET ("courses/%s/sections", [id]) None
          (pycanvas_combine_kwargs kwargs)).

Definition create_course_section (self : ref) (kwargs : gmap string value) : M ref :=
  id ← getattr self "id";
  response ← request POST ("courses/%s/sections", [id]) (pycanvas_combine_kwargs kwargs);
  new TSection (json response).

End Methods.
End Course.

Module CourseNickname.
Section Methods.
Context `{Requester}.

Definition remove (self : ref) : M ref :=
  course_id ← getattr self "course_id";
  response ← request DELETE ("users/self/course_nicknames/%s", [course_id]) ∅;
  new TCourseNickname (json response).

End Methods.
End CourseNickname.

(** ** canvasapi/appointment_group.py *)

Module AppointmentGroup.
Section Methods.
Context `{Util}.

Definition required_msg : string := "Dictionary with key 'context_codes' is required.".

Definition __str__ (self : ref) : M fmt :=
  title ← getattr self "title";
  id ← getattr self "id";
  mret ("{} ({})", [title; id]).

Definition delete (self : ref) (kwargs : gmap string value) : M ref :=
  id ← getattr self "id";
  response ← request DELETE ("appointment_groups/%s", [id])
    {[ "_kwargs" := canvasapi_combine_kwargs kwargs ]};
  new TAppointmentGroup (json response).

Definition edit (self : ref) (appointment_group : value) (kwargs : gmap string value) : M ref :=
  if has_required_key "context_codes" appointment_group then
    let kwargs := <["appointment_group" := appointment_group]> kwargs in
    id ← getattr self "id";
    response ← request PUT ("appointment_groups/%s", [id])
      {[ "_kwargs" := canvasapi_combine_kwargs kwargs ]};
    has_title ← py_contains "title" (json response);
    (if (has_title : bool) then set_attributes self (json response) else mret ());;
    new TAppointmentGroup (json response)
  else raise (RequiredFieldMissing required_msg).

End Methods.
End AppointmentGroup.

(** ** Every public method, as one dispatch *)

Inductive returned : Type :=
| RetValue (v : value)
| RetObject (r : ref)
| RetSequence (seq : PaginatedList)
| RetText (s : fmt).

Inductive method_call : Type :=
| Course__str__
| Course_conclude
| Course_delete
| Course_update (kwargs : gmap string value)
| Course_get_user (user_id user_id_type : value)
| Course_get_users (search_term : value) (kwargs : gmap string value)
| Course_enroll_user (user : ref) (enrollment_type : value) (kwargs : gmap string value)
| Course_get_recent_students
| Course_preview_html (html : value)
| Course_get_settings
| Course_update_settings (kwargs : gmap string value)
| Course_upload (file : value) (kwargs : gmap string value)
| Course_reset
| Course_get_enrollments (kwargs : gmap string value)
| Course_get_assignment (assignment_id : value) (kwargs : gmap string value)
| Course_get_assignments (kwargs : gmap string value)
| Course_create_assignment (assignment : value) (kwargs : gmap string value)
| Course_get_quizzes (kwargs : gmap string value)
| Course_get_quiz (quiz_id : value)
| Course_create_quiz (quiz : value) (kwargs : gmap string value)
| Course_get_modules (kwargs : gmap string value)
| Course_get_module (module_id : value) (kwargs : gmap string value)
| Course_create_module (module : value) (kwargs : gmap string value)
| Course_get_external_tool (tool_id : value)
| Course_get_external_tools (kwargs : gmap string value)
| Course_get_section (section_id : value)
| Course_show_front_page
| Course_edit_front_page (kwargs : gmap string value)
| Course_get_pages (kwargs : gmap string value)
| Course_create_page (wiki_page : value) (kwargs : gmap string value)
| Course_get_page (url : value)
| Course_list_sections (kwargs : gmap string value)
| Course_create_course_section (kwargs : gmap string value)
| AppointmentGroup__str__
| AppointmentGroup_delete (kwargs : gmap string value)
| AppointmentGroup_edit (appointment_group : value) (kwargs : gmap string value).

Section Dispatch.
Context `{Util}.

Definition returning {A : Type} (wrap : A -> returned) (m : M A) : M returned :=
  a ← m; mret (wrap a).

Definition invoke (self : ref) (c : method_call) : M returned :=
  match c with
  | Course__str__ => returning RetText (Course.__str__ self)
  | Course_conclude => returning RetValue (Course.conclude self)
  | Course_delete => returning RetValue (Course.delete self)
  | Course_update kw => returning RetValue (Course.update self kw)
  | Course_get_user u t => returning RetObject (Course.get_user self u t)
  | Course_get_users s kw => returning RetSequence (Course.get_users self s kw)
  | Course_enroll_user u t kw => returning RetObject (Course.enroll_user self u t kw)
  | Course_get_recent_students => returning RetSequence (Course.get_recent_students self)
  | Course_preview_html h => returning RetValue (Course.preview_html self h)
  | Course_get_settings => returning RetValue (Course.get_settings self)
  | Course_update_settings kw => returning RetValue (Course.update_settings self kw)
  | Course_upload f kw => returning RetValue (Course.upload self f kw)
  | Course_reset => returning RetObject (Course.reset self)
  | Course_get_enrollments kw => returning RetSequence (Course.get_enrollments self kw)
  | Course_get_assignment a kw => returning RetObject (Course.get_assignment self a kw)
  | Course_get_assignments kw => returning RetSequence (Course.get_assignments self kw)
  | Course_create_assignment a kw => returning RetObject (Course.create_assignment self a kw)
  | Course_get_quizzes kw => returning RetSequence (Course.get_quizzes self kw)
  | Course_get_quiz q => returning RetObject (Course.get_quiz self q)
  | Course_create_quiz q kw => returning RetObject (Course.create_quiz self q kw)
  | Course_get_modules kw => returning RetSequence (Course.get_modules self kw)
  | Course_get_module m kw => returning RetObject (Course.get_module self m kw)
  | Course_create_module m kw => returning RetObject (Course.create_module self m kw)
  | Course_get_external_tool t => returning RetObject (Course.get_external_tool self t)
  | Course_get_external_tools kw => returning RetSequence (Course.get_external_tools self kw)
  | Course_get_section s => returning RetObject (Course.get_section self s)
  | Course_show_front_page => returning RetObject (Course.show_front_page self)
  | Course_edit_front_page kw => returning RetObject (Course.edit_front_page self kw)
  | Course_get_pages kw => returning RetSequence (Course.get_pages self kw)
  | Course_create_page p kw => returning RetObject (Course.create_page self p kw)
  | Course_get_page u => returning RetObject (Course.get_page self u)
  | Course_list_sections kw => returning RetSequence (Course.list_sections self kw)
  | Course_create_course_section kw => returning RetObject (Course.create_course_section self kw)
  | AppointmentGroup__str__ => returning RetText (AppointmentGroup.__str__ self)
  | AppointmentGroup_delete kw => returning RetObject (AppointmentGroup.delete self kw)
  | AppointmentGroup_edit a kw => returning RetObject (AppointmentGroup.edit self a kw)
  end.

(** ** What a run did with the requester *)

(** The round trips a run added to the trace. *)
Definition new_round_trips (w w' : World) : list (Request * (req_error + Response)) :=
  drop (length (trace w)) (trace w').

(** A run lets the requester's errors through: the trace only grows, and
    every failed round trip of the run is its last one and is the very
    error the run raises. *)
Definition propagates {A : Type} (w : World) (out : result A * World) : Prop :=
  ∃ added,
    trace out.2 = trace w ++ added ∧
    ∀ req e, (req, inl e) ∈ added →
      out.1 = Raise (RequesterError e) ∧ ∃ before, added = before ++ [(req, inl e)].

Definition transparent {A : Type} (m : M A) : Prop :=
  ∀ w, propagates w (m w).

(** The five mutating methods that check a dict argument, with the key each
    one requires and the class it constructs. *)
Inductive guarded_method : Type :=
| GEdit | GCreateAssignment | GCreateQuiz | GCreateModule | GCreatePage.

Definition required_key (g : guarded_method) : string :=
  match g with
  | GEdit => "context_codes"
  | GCreateAssignment => "name"
  | GCreateQuiz => "title"
  | GCreateModule => "name"
  | GCreatePage => "title"
  end.

Definition declared_type (g : guarded_method) : resource_type :=
  match g with
  | GEdit => TAppointmentGroup
  | GCreateAssignment => TAssignment
  | GCreateQuiz => TQuiz
  | GCreateModule => TModule
  | GCreatePage => TPage
  end.

Definition run_guarded (g : guarded_method) (self : ref) (arg : value)
    (kwargs : gmap string value) : M ref :=
  match g with
  | GEdit => AppointmentGroup.edit self arg kwargs
  | GCreateAssignment => Course.create_assignment self arg kwargs
  | GCreateQuiz => Course.create_quiz self arg kwargs
  | GCreateModule => Course.create_module self arg kwargs
  | GCreatePage => Course.create_page self arg kwargs
  end.

(** What the guard promises once the key is there: one round trip, whose
    error is raised as it is, and whose JSON object is wrapped in an object
    of the declared class. *)
Definition one_round_trip (g : guarded_method) (self : ref) (arg : value)
    (kwargs : gmap string value) (w : World) : Prop :=
  ∃ req out,
    trace (run_guarded g self arg kwargs w).2 = trace w ++ [(req, out)] ∧
    match out with
    | inl e => (run_guarded g self arg kwargs w).1 = Raise (RequesterError e)
    | inr resp =>
        ∀ d, json resp = VDict d →
          ∃ r, (run_guarded g self arg kwargs w).1 = Ok r ∧
               cls <$> heap (run_guarded g self arg kwargs w).2 !! r = Some (declared_type g)
    end.

(** The nine single-resource methods of Course that stamp the course id on
    the decoded body. *)
Inductive injecting_method : Type :=
| IGetQuiz (quiz_id : value)
| ICreateQuiz (quiz : value) (kwargs : gmap string value)
| IGetModule (module_id : value) (kwargs : gmap string value)
| ICreateModule (module : value) (kwargs : gmap string value)
| IGetExternalTool (tool_id : value)
| IShowFrontPage
| IEditFrontPage (kwargs : gmap string value)
| ICreatePage (wiki_page : value) (kwargs : gmap string value)
| IGetPage (url : value).

Definition run_injecting (i : injecting_method) (self : ref) : M ref :=
  match i with
  | IGetQuiz q => Course.get_quiz self q
  | ICreateQuiz q kw => Course.create_quiz self q kw
  | IGetModule m kw => Course.get_module self m kw
  | ICreateModule m kw => Course.create_module self m kw
  | IGetExternalTool t => Course.get_external_tool self t
  | IShowFrontPage => Course.show_front_page self
  | IEditFrontPage kw => Course.edit_front_page self kw
  | ICreatePage p kw => Course.create_page self p kw
  | IGetPage u => Course.get_page self u
  end.

Definition injected_type (i : injecting_method) : resource_type :=
  match i with
  | IGetQuiz _ | ICreateQuiz _ _ => TQuiz
  | IGetModule _ _ | ICreateModule _ _ => TModule
  | IGetExternalTool _ => TExternalTool
  | IShowFrontPage | IEditFrontPage _ | ICreatePage _ _ | IGetPage _ => TPage
  end.

(** The required-key guard of the three stamping methods that have one. *)
Definition injecting_guard (i : injecting_method) : bool :=
  match i with
  | ICreateQuiz quiz _ => has_required_key "title" quiz
  | ICreateModule module _ => has_required_key "name" module
  | ICreatePage wiki_page _ => has_required_key "title" wiki_page
  | IGetQuiz _ | IGetModule _ _ | IGetExternalTool _ | IShowFrontPage
  | IEditFrontPage _ | IGetPage _ => true
  end.

(** The shape the nine methods share: read the id, make the request, stamp
    the id on the decoded body, construct. *)
Definition stamp_course_id (T : resource_type) (v : http_method)
    (mkpath : value → fmt) (kw : gmap string value) (self : ref) : M ref :=
  id ← getattr self "id";
  response ← request v (mkpath id) kw;
  course_id ← getattr self "id";
  stamped ← py_update (json response) {[ "course_id" := course_id ]};
  new T stamped.

(** The nine methods of Course that return a paginated sequence. *)
Inductive listing_method : Type :=
| LGetUsers (search_term : value) (kwargs : gmap string value)
| LGetRecentStudents
| LGetEnrollments (kwargs : gmap string value)
| LGetAssignments (kwargs : gmap string value)
| LGetQuizzes (kwargs : gmap string value)
| LGetModules (kwargs : gmap string value)
| LGetExternalTools (kwargs : gmap string value)
| LGetPages (kwargs : gmap string value)
| LListSections (kwargs : gmap string value).

Definition run_listing (l : listing_method) (self : ref) : M PaginatedList :=
  match l with
  | LGetUsers s kw => Course.get_users self s kw
  | LGetRecentStudents => Course.get_recent_students self
  | LGetEnrollments kw => Course.get_enrollments self kw
  | LGetAssignments kw => Course.get_assignments self kw
  | LGetQuizzes kw => Course.get_quizzes self kw
  | LGetModules kw => Course.get_modules self kw
  | LGetExternalTools kw => Course.get_external_tools self kw
  | LGetPages kw => Course.get_pages self kw
  | LListSections kw => Course.list_sections self kw
  end.


End Dispatch.

(** ** Budgets and frames of a run *)

Section Budgets.
Context `{Requester}.

(** A run only appends to a log of the world (the trace of round trips, or
    the heap of objects), and appends at most [n] entries. *)
Definition grows_by {X A : Type} (log : World → list X) (n : nat) (m : M A) : Prop :=
  ∀ w, ∃ added, log (m w).2 = log w ++ added ∧ length added ≤ n.

(** A run keeps what is in the heap: no object disappears or changes class,
    and no object other than the receiver changes at all. *)
Definition frames {A : Type} (self : ref) (m : M A) : Prop :=
  ∀ w, length (heap w) ≤ length (heap (m w).2) ∧
       ∀ r, r < length (heap w) →
         cls <$> heap (m w).2 !! r = cls <$> heap w !! r ∧
         (r ≠ self → heap (m w).2 !! r = heap w !! r).

End Budgets.

(** [Course.upload] hands the whole call to the uploader. *)
Definition delegates (c : method_call) : bool :=
  match c with
  | Course_upload _ _ => true
  | _ => false
  end.

(** The two methods that call [set_attributes] on their receiver. *)
Definition rewrites_receiver (c : method_call) : bool :=
  match c with
  | Course_update _ | AppointmentGroup_edit _ _ => true
  | _ => false
  end.

(** ** Further groupings of the methods *)

(** The three methods that read one key of the response and return it,
    with the key and the default each one gives to [get]. *)
Inductive reader : Type :=
| RConclude
| RDelete
| RPreviewHtml (html : value).

Definition run_reader `{Requester} (r : reader) (self : ref) : M value :=
  match r with
  | RConclude => Course.conclude self
  | RDelete => Course.delete self
  | RPreviewHtml html => Course.preview_html self html
  end.

Definition reader_key (r : reader) : string :=
  match r with
  | RConclude => "conclude"
  | RDelete => "delete"
  | RPreviewHtml _ => "html"
  end.

Definition reader_default (r : reader) : value :=
  match r with
  | RConclude | RDelete => VNone
  | RPreviewHtml _ => VStr ""
  end.

(** The call of [invoke] behind a guarded method. *)
Definition guarded_call (g : guarded_method) (arg : value) (kwargs : gmap string value)
    : method_call :=
  match g with
  | GEdit => AppointmentGroup_edit arg kwargs
  | GCreateAssignment => Course_create_assignment arg kwargs
  | GCreateQuiz => Course_create_quiz arg kwargs
  | GCreateModule => Course_create_module arg kwargs
  | GCreatePage => Course_create_page arg kwargs
  end.

(** A run never raises RequiredFieldMissing. *)
Definition never_missing_field `{Requester} {A : Type} (m : M A) : Prop :=
  ∀ w msg, (m w).1 ≠ Raise (RequiredFieldMissing msg).

(** The calls whose body calls [self._requester.request] itself. *)
Definition makes_request (c : method_call) : bool :=
  match c with
  | Course__str__ | AppointmentGroup__str__ | Course_upload _ _
  | Course_get_users _ _ | Course_get_recent_students | Course_get_enrollments _
  | Course_get_assignments _ | Course_get_quizzes _ | Course_get_modules _
  | Course_get_external_tools _ | Course_get_pages _ | Course_list_sections _ => false
  | _ => true
  end.

(** The guard of the call, for the five guarded methods. *)
Definition passes_guard (c : method_call) : bool :=
  match c with
  | Course_create_assignment a _ => has_required_key "name" a
  | Course_create_quiz q _ => has_required_key "title" q
  | Course_create_module m _ => has_required_key "name" m
  | Course_create_page p _ => has_required_key "title" p
  | AppointmentGroup_edit a _ => has_required_key "context_codes" a
  | _ => true
  end.

(** The receiver, and the user handed to [enroll_user], have an id. *)
Definition objects_have_ids `{Requester} (self : ref) (c : method_call) (w : World) : Prop :=
  (∃ v, getattr self "id" w = (Ok v, w)) ∧
  match c with
  | Course_enroll_user user _ _ => ∃ v, getattr user "id" w = (Ok v, w)
  | _ => True
  end.

(** ** A scripted requester, for running the methods on concrete inputs *)

Inductive http_failure : Type :=
| AuthorizationFailure
| TransportFailure
| BadStatus (code : Z).

(** The server is a script of canned outcomes, answered in order whatever
    the request; past the end of the script every request fails. *)
Definition scripted : Requester :=
  {| req_error := http_failure;
     server := list (http_failure + Response);
     respond := fun script _ =>
       match script with
       | [] => (inl TransportFailure, [])
       | out :: rest => (out, rest)
       end |}.

Definition scripted_util : @Util scripted :=
  {| pycanvas_combine_kwargs := fun kw => kw;
     canvasapi_combine_kwargs := fun kw => VDict kw;
     Uploader_start := fun url file kw =>
       response ← @request scripted POST url kw;
       mret (json response) |}.

Definition body (d : gmap string value) : http_failure + Response :=
  inr {| json := VDict d; next_link := None |}.

(** A world with one course, of id 7, at reference 0. *)
Definition course7 : Obj :=
  {| cls := TCourse; attrs := {[ "id" := VInt 7; "name" := VStr "Logic" ]} |}.

Definition world7 (script : list (http_failure + Response)) : @World scripted :=
  @Build_World scripted [] script [course7].


Definition quiz_arg : value := VDict {[ "title" := VStr "Quiz 1" ]}.

Definition group_arg : value := VDict {[ "context_codes" := VList [VStr "course_7"] ]}.

(** The quizzes of course 7 on two pages, of sizes 2 and 1; the second page
    has no next-link. *)
Definition quiz (n : Z) : gmap string value :=
  {[ "id" := VInt n; "course_id" := VInt 99 ]}.

Definition page1 : Response :=
  {| json := VList [VDict (quiz 1); VDict (quiz 2)];
     next_link := Some "courses/7/quizzes?page=2" |}.

Definition page2 : Response :=
  {| json := VList [VDict (quiz 3)]; next_link := None |}.

Definition two_pages : list (http_failure + Response) := [inr page1; inr page2].

Definition quizzes7 : PaginatedList :=
  Construct TQuiz GET ("courses/%s/quizzes", [VInt 7]) (Some {[ "course_id" := VInt 7 ]}) ∅.

(** The same sequence once drained. *)
Definition drained7 : PaginatedList :=
  {| element_type := TQuiz; extra_context := Some {[ "course_id" := VInt 7 ]};
     expected_key := None; current_request := None; buffered_items := [] |}.


(** More objects and bodies for concrete runs. *)
Definition student : Obj := {| cls := TUser; attrs := {[ "id" := VInt 42 ]} |}.

Definition nickname7 : Obj :=
  {| cls := TCourseNickname; attrs := {[ "course_id" := VInt 7; "nickname" := VStr "L" ]} |}.

Definition array_body : http_failure + Response :=
  inr {| json := VList []; next_link := None |}.

Definition null_body : http_failure + Response :=
  inr {| json := VNone; next_link := None |}.

(** * Properties *)

(** ** Running the monad *)

Lemma getattr_world `{Requester} (self : ref) (name : string) (w : World) :
  (getattr self name w).2 = w.
Proof. unfold getattr. by repeat case_match. Qed.

(** ** C1 *)

(** C1.  In each of the five mutating methods that validate a dict argument
    (AppointmentGroup.edit, Course.create_assignment, Course.create_quiz,
    Course.create_module, Course.create_page), a missing required key raises
    RequiredFieldMissing and leaves the whole world as it was: the trace
    has no new round trip and the heap, hence every attribute of the
    receiver, is unchanged. *)
Theorem required_field_missing_before_any_request `{Util}
    (g : guarded_method) (self : ref) (arg : value) (kwargs : gmap string value) (w : World) :
  has_required_key (required_key g) arg = false →
  ∃ msg, run_guarded g self arg kwargs w = (Raise (RequiredFieldMissing msg), w).
Proof.
  intros Hkey.
  destruct g; simpl in Hkey |- *;
    [ unfold AppointmentGroup.edit
    | unfold Course.create_assignment
    | unfold Course.create_quiz
    | unfold Course.create_module
    | unfold Course.create_page ];
    rewrite Hkey; eexists; reflexivity.
Qed.

Lemma required_field_missing_before_any_request_witness :
  has_required_key "title" (VDict {[ "name" := VStr "Quiz 1" ]}) = false ∧
  ∃ msg, @Course.create_quiz scripted scripted_util 0 (VDict {[ "name" := VStr "Quiz 1" ]}) ∅
           (world7 []) = (Raise (RequiredFieldMissing msg), world7 []).
Proof.
  split; [reflexivity|].
  apply (@required_field_missing_before_any_request scripted scripted_util GCreateQuiz).
  reflexivity.
Defined.

(** ** C7: errors of the requester pass through every method *)

Lemma quiet_transparent `{Requester} {A : Type} (m : M A) :
  (∀ w, trace (m w).2 = trace w) → transparent m.
Proof.
  intros Hq w. exists []. split.
  - by rewrite Hq, app_nil_r.
  - intros req e Hin. by apply elem_of_nil in Hin.
Qed.

Lemma transparent_ret `{Requester} {A : Type} (a : A) : transparent (mret a).
Proof. by apply quiet_transparent. Qed.

Lemma transparent_raise `{Requester} {A : Type} (e : exn) : transparent (raise (A := A) e).
Proof. by apply quiet_transparent. Qed.

Lemma transparent_getattr `{Requester} (self : ref) (name : string) :
  transparent (getattr self name).
Proof. apply quiet_transparent. intros w. by rewrite getattr_world. Qed.

Lemma transparent_py_get `{Requester} (b : value) (key : string) (dflt : value) :
  transparent (py_get b key dflt).
Proof. apply quiet_transparent. intros w. by destruct b. Qed.

Lemma transparent_py_update `{Requester} (b : value) (extra : gmap string value) :
  transparent (py_update b extra).
Proof. apply quiet_transparent. intros w. by destruct b. Qed.

Lemma transparent_py_contains `{Requester} (key : string) (b : value) :
  transparent (py_contains key b).
Proof. apply quiet_transparent. intros w. by destruct b. Qed.

Lemma transparent_set_attributes `{Requester} (self : ref) (b : value) :
  transparent (set_attributes self b).
Proof.
  apply quiet_transparent. intros w.
  destruct b; try done. simpl. by destruct (heap w !! self).
Qed.

Lemma transparent_new `{Requester} (c : resource_type) (b : value) : transparent (new c b).
Proof. apply quiet_transparent. intros w. by destruct b. Qed.

Lemma transparent_request `{Requester} (v : http_method) (p : fmt) (kw : gmap string value) :
  transparent (request v p kw).
Proof.
  intros w. unfold request.
  destruct (respond (remote w) _) as [out srv] eqn:Hr.
  exists [({| verb := v; path := p; params := kw |}, out)].
  destruct out as [e|r]; simpl; (split; [done|]);
    intros req e' Hin; apply list_elem_of_singleton in Hin.
  - injection Hin as -> ->. split; [done|]. by exists [].
  - discriminate.
Qed.

Lemma transparent_bind `{Requester} {A B : Type} (m : M A) (f : A → M B) :
  transparent m → (∀ a, transparent (f a)) → transparent (m ≫= f).
Proof.
  intros Hm Hf w. unfold mbind, M_bind.
  destruct (Hm w) as (added1 & Ht1 & Hfail1).
  destruct (m w) as [[a|e] w1] eqn:Hmw; simpl in *.
  - destruct (Hf a w1) as (added2 & Ht2 & Hfail2).
    exists (added1 ++ added2). split.
    + by rewrite Ht2, Ht1, app_assoc.
    + intros req e' Hin. apply elem_of_app in Hin as [Hin|Hin].
      * by destruct (Hfail1 req e' Hin) as [? _].
      * destruct (Hfail2 req e' Hin) as [Hr [before ->]].
        split; [done|]. exists (added1 ++ before). by rewrite app_assoc.
  - exists added1. split; [done|].
    intros req e' Hin. destruct (Hfail1 req e' Hin) as [Heq Hlast].
    injection Heq as ->. by split.
Qed.

Lemma transparent_if `{Requester} {A : Type} (b : bool) (m1 m2 : M A) :
  transparent m1 → transparent m2 → transparent (if b then m1 else m2).
Proof. by destruct b. Qed.

Lemma transparent_returning `{Util} {A : Type} (wrap : A → returned) (m : M A) :
  transparent m → transparent (returning wrap m).
Proof.
  intros Hm. unfold returning. apply transparent_bind; [done|].
  intros a. apply transparent_ret.
Qed.

Create HintDb transparent.
#[export] Hint Resolve transparent_ret transparent_raise transparent_getattr
  transparent_py_get transparent_py_update transparent_py_contains
  transparent_set_attributes transparent_new transparent_request
  transparent_if : transparent.

Ltac transparency :=
  repeat first
    [ apply transparent_bind; [|intros ?]
    | apply transparent_if
    | solve [auto with transparent] ].

(** C7.  Every method of Course and AppointmentGroup lets the errors of the
    requester through: in any run, a round trip that fails is the last
    round trip of that run (nothing is retried or attempted after it) and
    the run raises that very error, unmodified.  [Course.upload] is
    nothing but [Uploader(...).start()], so it inherits the property from
    the uploader. *)
Theorem requester_errors_propagate `{Util} (self : ref) (c : method_call) :
  (∀ url file kw, transparent (Uploader_start url file kw)) →
  transparent (invoke self c).
Proof.
  intros Hup.
  destruct c; simpl; apply transparent_returning;
    unfold Course.__str__, Course.conclude, Course.delete, Course.update,
      Course.get_user, Course.get_users, Course.enroll_user,
      Course.get_recent_students, Course.preview_html, Course.get_settings,
      Course.update_settings, Course.upload, Course.reset,
      Course.get_enrollments, Course.get_assignment, Course.get_assignments,
      Course.create_assignment, Course.get_quizzes, Course.get_quiz,
      Course.create_quiz, Course.get_modules, Course.get_module,
      Course.create_module, Course.get_external_tool,
      Course.get_external_tools, Course.get_section, Course.show_front_page,
      Course.edit_front_page, Course.get_pages, Course.create_page,
      Course.get_page, Course.list_sections, Course.create_course_section,
      AppointmentGroup.__str__, AppointmentGroup.delete, AppointmentGroup.edit;
    transparency.
Qed.

Lemma requester_errors_propagate_witness :
  (@invoke scripted scripted_util 0 Course_conclude (world7 [inl (BadStatus 500)])).1
    = Raise (@RequesterError scripted (BadStatus 500)) ∧
  @propagates scripted returned (world7 [inl (BadStatus 500)])
    (@invoke scripted scripted_util 0 Course_conclude (world7 [inl (BadStatus 500)])).
Proof.
  split; [reflexivity|].
  apply (@requester_errors_propagate scripted scripted_util 0 Course_conclude).
  intros url file kw. simpl. transparency.
Defined.

(** ** C3: the required-key guard *)

Ltac unfold_methods :=
  unfold run_guarded, AppointmentGroup.edit, Course.create_assignment, Course.create_quiz,
    Course.create_module, Course.create_page, Course.get_quiz, Course.get_module,
    Course.get_external_tool, Course.show_front_page, Course.edit_front_page,
    Course.get_page, Course.update in *.

Ltac unfold_monad :=
  unfold getattr, request, py_get, py_update, py_contains, set_attributes, new in *;
  unfold mbind, M_bind, mret, M_ret, raise in *.

Lemma guarded_never_raises_missing_field `{Util}
    (g : guarded_method) (self : ref) (arg : value) (kwargs : gmap string value) (w : World) (msg : string) :
  has_required_key (required_key g) arg = true →
  (run_guarded g self arg kwargs w).1 ≠ Raise (RequiredFieldMissing msg).
Proof.
  intros Hkey.
  destruct g; simpl in Hkey; unfold_methods; rewrite Hkey; unfold_monad;
    repeat case_match; simplify_eq; simpl; congruence.
Qed.

Lemma lookup_snoc_length {A : Type} (l : list A) (x : A) (n : nat) :
  length l = n → (l ++ [x]) !! n = Some x.
Proof. intros <-. by rewrite list_lookup_middle. Qed.

(** C3 (amended).  Each guarded method raises RequiredFieldMissing if and
    only if its argument is not a dict holding the mandatory key.  When the
    key is there and the receiver has an id, exactly one round trip is
    made; if it fails its error is raised as it is, and if it answers with
    a JSON object the method returns an object of the declared class. *)
Theorem required_key_guard `{Util}
    (g : guarded_method) (self : ref) (arg : value) (kwargs : gmap string value) (w : World) :
  ((∃ msg, (run_guarded g self arg kwargs w).1 = Raise (RequiredFieldMissing msg))
     ↔ has_required_key (required_key g) arg = false) ∧
  (has_required_key (required_key g) arg = true →
   ∀ o cid, heap w !! self = Some o → attrs o !! "id" = Some cid →
   one_round_trip g self arg kwargs w).
Proof.
  split.
  - split.
    + intros [msg Hraise].
      destruct (has_required_key (required_key g) arg) eqn:Hkey; [|done].
      by apply (guarded_never_raises_missing_field g self arg kwargs w msg) in Hkey.
    + intros Hkey.
      destruct (required_field_missing_before_any_request g self arg kwargs w Hkey)
        as [msg Hrun].
      exists msg. by rewrite Hrun.
  - intros Hkey o cid Ho Hid. unfold one_round_trip.
    destruct g; simpl in Hkey; unfold_methods; rewrite Hkey; unfold_monad;
      rewrite Ho, Hid;
      match goal with |- context [respond ?s ?r] =>
        destruct (respond s r) as [[e|resp] srv] eqn:Hresp; exists r;
        [exists (inl e) | exists (inr resp)] end;
      simpl; (split; try reflexivity).
    all: try (destruct (json resp) eqn:Hj; simpl; try rewrite Ho; simpl; try reflexivity;
              repeat case_match; simplify_eq; reflexivity).
    all: intros d ->; repeat (simpl; first [rewrite Ho | rewrite Hid | case_bool_decide]); simpl.
    all: try (eexists; split; [reflexivity|]; simpl; by erewrite lookup_snoc_length).
  Qed.

(** C3 (counterexample).  The key ['title'] is present, yet the one request
    fails and [create_quiz] raises the transport failure: no object is
    returned. *)
Lemma create_quiz_with_key_may_return_nothing :
  has_required_key "title" quiz_arg = true ∧
  (@Course.create_quiz scripted scripted_util 0 quiz_arg ∅ (world7 [inl TransportFailure])).1
    = Raise (@RequesterError scripted TransportFailure) ∧
  length (trace (@Course.create_quiz scripted scripted_util 0 quiz_arg ∅
                   (world7 [inl TransportFailure])).2) = 1.
Proof. (repeat split; reflexivity). Qed.

Lemma required_key_guard_witness :
  has_required_key "title" quiz_arg = true ∧
  @heap scripted (world7 [body {[ "id" := VInt 3 ]}]) !! 0 = Some course7 ∧
  attrs course7 !! "id" = Some (VInt 7) ∧
  @one_round_trip scripted scripted_util GCreateQuiz 0 quiz_arg ∅
    (world7 [body {[ "id" := VInt 3 ]}]).
Proof.
  split; [reflexivity|]. split; [reflexivity|]. split; [reflexivity|].
  apply (proj2 (@required_key_guard scripted scripted_util GCreateQuiz 0 quiz_arg ∅
                  (world7 [body {[ "id" := VInt 3 ]}]))
           eq_refl course7 (VInt 7) eq_refl eq_refl).
Defined.

(** ** C2: the course id stamped on single resources *)

Lemma stamp_course_id_inv `{Requester} (T : resource_type) (v : http_method)
    (mkpath : value → fmt) (kw : gmap string value) (self : ref) (w w' : World) (r : ref) :
  stamp_course_id T v mkpath kw self w = (Ok r, w') →
  ∃ o cid req resp d,
    heap w !! self = Some o ∧ attrs o !! "id" = Some cid ∧
    trace w' = trace w ++ [(req, inr resp)] ∧ json resp = VDict d ∧
    r = length (heap w) ∧
    heap w' = heap w ++ [{| cls := T; attrs := {[ "course_id" := cid ]} ∪ d |}] ∧
    ({[ "course_id" := cid ]} ∪ d : gmap string value) !! "course_id" = Some cid.
Proof.
  unfold stamp_course_id. intros Hrun. unfold_monad.
  repeat case_match; simplify_eq; simpl in *; simplify_eq.
  do 5 eexists; repeat split; try eassumption; try reflexivity.
  by apply lookup_union_Some_l, lookup_singleton_eq.
Qed.

Lemma stamp_course_id_returns `{Requester} (T : resource_type) (v : http_method)
    (mkpath : value → fmt) (kw : gmap string value) (self : ref) (w : World)
    (o : Obj) (cid : value) (resp : Response) (srv : server) (d : gmap string value) :
  heap w !! self = Some o →
  attrs o !! "id" = Some cid →
  respond (remote w) {| verb := v; path := mkpath cid; params := kw |} = (inr resp, srv) →
  json resp = VDict d →
  stamp_course_id T v mkpath kw self w =
    (Ok (length (heap w)),
     {| trace := trace w ++ [({| verb := v; path := mkpath cid; params := kw |}, inr resp)];
        remote := srv;
        heap := heap w ++ [{| cls := T; attrs := {[ "course_id" := cid ]} ∪ d |}] |}).
Proof.
  intros Ho Hid Hresp Hd. unfold stamp_course_id. unfold_monad.
  rewrite Ho, Hid, Hresp. simpl. by rewrite Ho, Hid, Hd.
Qed.

(** C2.  Each of the nine single-resource methods of Course that inject
    parent context returns an object whenever the receiver has an id, the
    guard (if the method has one) passes and its request is answered with a
    JSON object; and whenever one of them returns an object, that object is
    new, of the method's class, and its attributes are the decoded response
    JSON with ['course_id'] set to the id of the course, the injected value
    winning over a ['course_id'] of the raw response. *)
Theorem course_id_is_injected `{Util} (i : injecting_method) (self : ref) (w : World) :
  (∀ r w',
     run_injecting i self w = (Ok r, w') →
     ∃ o cid req resp d,
       heap w !! self = Some o ∧ attrs o !! "id" = Some cid ∧
       trace w' = trace w ++ [(req, inr resp)] ∧ json resp = VDict d ∧
       r = length (heap w) ∧
       heap w' = heap w ++ [{| cls := injected_type i;
                               attrs := {[ "course_id" := cid ]} ∪ d |}] ∧
       ({[ "course_id" := cid ]} ∪ d : gmap string value) !! "course_id" = Some cid) ∧
  (∀ o cid,
     heap w !! self = Some o → attrs o !! "id" = Some cid → injecting_guard i = true →
     ∃ req,
       ∀ resp srv d,
         respond (remote w) req = (inr resp, srv) → json resp = VDict d →
         run_injecting i self w =
           (Ok (length (heap w)),
            {| trace := trace w ++ [(req, inr resp)];
               remote := srv;
               heap := heap w ++ [{| cls := injected_type i;
                                     attrs := {[ "course_id" := cid ]} ∪ d |}] |})).
Proof.
  split.
  - intros r w'.
    destruct i; simpl; unfold_methods;
      try (destruct (has_required_key _ _); [|discriminate]);
      apply stamp_course_id_inv.
  - intros o cid Ho Hid Hguard.
    destruct i; simpl in Hguard |- *; unfold_methods; try rewrite Hguard;
      eexists; intros resp srv d Hresp Hd;
      exact (stamp_course_id_returns _ _ _ _ self w o cid resp srv d Ho Hid Hresp Hd).
Qed.

Lemma course_id_is_injected_witness :
  let raw : gmap string value := {[ "id" := VInt 3; "course_id" := VInt 99 ]} in
  let w := world7 [body raw] in
  let run := @Course.get_quiz scripted 0 (VInt 3) w in
  let req := Build_Request GET ("courses/%s/quizzes/%s", [VInt 7; VInt 3]) ∅ in
  heap w !! 0 = Some course7 ∧ attrs course7 !! "id" = Some (VInt 7) ∧
  injecting_guard (IGetQuiz (VInt 3)) = true ∧
  @respond scripted (remote w) req = (body raw, []) ∧
  run = (Ok 1,
         @Build_World scripted (trace w ++ [(req, body raw)]) []
           (heap w ++ [{| cls := TQuiz; attrs := {[ "course_id" := VInt 7 ]} ∪ raw |}])) ∧
  (heap run.2 !! 1 ≫= λ o, attrs o !! "course_id") = Some (VInt 7) ∧
  ∃ o cid req' resp d,
    heap w !! 0 = Some o ∧ attrs o !! "id" = Some cid ∧
    trace run.2 = trace w ++ [(req', inr resp)] ∧ json resp = VDict d ∧
    1 = length (heap w) ∧
    heap run.2 = heap w ++ [{| cls := TQuiz; attrs := {[ "course_id" := cid ]} ∪ d |}] ∧
    ({[ "course_id" := cid ]} ∪ d : gmap string value) !! "course_id" = Some cid.
Proof.
  split; [reflexivity|]. split; [reflexivity|]. split; [reflexivity|].
  split; [reflexivity|].
  pose proof (@course_id_is_injected scripted scripted_util (IGetQuiz (VInt 3)) 0
                (world7 [body {[ "id" := VInt 3; "course_id" := VInt 99 ]}]))
    as [Hinv _].
  split; [reflexivity|]. split; [reflexivity|].
  apply Hinv. reflexivity.
Defined.

(** ** C8: Course.update *)

(** C8.  On a successful request answered with a JSON object,
    [Course.update] returns the value under ['name'] of the response (None
    when the key is absent), whatever its type; the receiver takes the
    attributes of the response when that value is truthy and the heap is
    left as it was otherwise. *)
Theorem update_returns_the_name `{Util}
    (self : ref) (kwargs : gmap string value) (w : World)
    (o : Obj) (cid : value) (resp : Response) (srv : server) (d : gmap string value) :
  let req := {| verb := PUT; path := ("courses/%s", [cid]);
                params := pycanvas_combine_kwargs kwargs |} in
  let name := default VNone (d !! "name") in
  heap w !! self = Some o →
  attrs o !! "id" = Some cid →
  respond (remote w) req = (inr resp, srv) →
  json resp = VDict d →
  Course.update self kwargs w =
    (Ok name,
     {| trace := trace w ++ [(req, inr resp)];
        remote := srv;
        heap := if truthy name
                then <[self := {| cls := cls o; attrs := d ∪ attrs o |}]> (heap w)
                else heap w |}).
Proof.
  intros req name Ho Hid Hresp Hd.
  unfold Course.update. unfold_monad.
  rewrite Ho, Hid. fold req. rewrite Hresp, Hd. fold name.
  destruct (truthy name); simpl; [rewrite Ho|]; reflexivity.
Qed.


Lemma update_returns_the_name_witness :
  let d : gmap string value := {[ "id" := VInt 7; "name" := VStr "Algebra" ]} in
  let w := world7 [body d] in
  let req := {| verb := PUT; path := ("courses/%s", [VInt 7]); params := ∅ |} in
  (@Course.update scripted scripted_util 0 ∅ w).1 = Ok (VStr "Algebra") ∧
  @Course.update scripted scripted_util 0 ∅ w =
    (Ok (default VNone (d !! "name")),
     @Build_World scripted
       (trace w ++ [(req, body d)]) []
       (if truthy (default VNone (d !! "name"))
        then <[0 := {| cls := TCourse; attrs := d ∪ attrs course7 |}]> (heap w)
        else heap w)).
Proof.
  split; [reflexivity|].
  apply (@update_returns_the_name scripted scripted_util 0 ∅
           (world7 [body {[ "id" := VInt 7; "name" := VStr "Algebra" ]}])
           course7 (VInt 7)
           {| json := VDict {[ "id" := VInt 7; "name" := VStr "Algebra" ]}; next_link := None |}
           [] {[ "id" := VInt 7; "name" := VStr "Algebra" ]});
    reflexivity.
Defined.

(** ** C9: AppointmentGroup.edit *)

(** C9 (amended).  When the guard holds, the receiver has an id and the
    request succeeds with a JSON object as its body,
    [AppointmentGroup.edit] gives the receiver the attributes of the
    response exactly when the response has the key ['title'], and in both
    cases returns a new AppointmentGroup wrapping the response, at a
    reference other than the receiver's. *)
Theorem edit_updates_on_title `{Util}
    (self : ref) (arg : value) (kwargs : gmap string value) (w : World)
    (o : Obj) (cid : value) (resp : Response) (srv : server) (d : gmap string value) :
  let req := {| verb := PUT; path := ("appointment_groups/%s", [cid]);
                params := {[ "_kwargs" :=
                  canvasapi_combine_kwargs (<["appointment_group" := arg]> kwargs) ]} |} in
  let receiver := if bool_decide (is_Some (d !! "title"))
                  then <[self := {| cls := cls o; attrs := d ∪ attrs o |}]> (heap w)
                  else heap w in
  has_required_key "context_codes" arg = true →
  heap w !! self = Some o →
  attrs o !! "id" = Some cid →
  respond (remote w) req = (inr resp, srv) →
  json resp = VDict d →
  ∃ r,
    AppointmentGroup.edit self arg kwargs w =
      (Ok r,
       {| trace := trace w ++ [(req, inr resp)];
          remote := srv;
          heap := receiver ++ [{| cls := TAppointmentGroup; attrs := d |}] |}) ∧
    r ≠ self ∧
    (receiver ++ [{| cls := TAppointmentGroup; attrs := d |}]) !! r
      = Some {| cls := TAppointmentGroup; attrs := d |}.
Proof.
  intros req receiver Hkey Ho Hid Hresp Hd.
  assert (self < length (heap w)) as Hlt by (by eapply lookup_lt_Some).
  exists (length (heap w)).
  unfold AppointmentGroup.edit. rewrite Hkey. unfold_monad.
  rewrite Ho, Hid. fold req. rewrite Hresp, Hd.
  subst receiver. case_bool_decide; simpl; [rewrite Ho; simpl|].
  - rewrite length_insert. split; [done|]. split; [lia|].
    apply lookup_snoc_length, length_insert.
  - split; [done|]. split; [lia|]. by apply lookup_snoc_length.
Qed.

Lemma edit_updates_on_title_witness :
  let d : gmap string value := {[ "id" := VInt 7 ]} in
  let w := world7 [body d] in
  has_required_key "context_codes" group_arg = true ∧
  (@AppointmentGroup.edit scripted scripted_util 0 group_arg ∅ w).1 = Ok 1 ∧
  heap (@AppointmentGroup.edit scripted scripted_util 0 group_arg ∅ w).2 !! 0 = Some course7 ∧
  ∃ r,
    @AppointmentGroup.edit scripted scripted_util 0 group_arg ∅ w =
      (Ok r,
       @Build_World scripted
         (trace w ++
          [({| verb := PUT; path := ("appointment_groups/%s", [VInt 7]);
               params := {[ "_kwargs" := VDict (<["appointment_group" := group_arg]> ∅) ]} |},
            body d)])
         []
         ((if bool_decide (is_Some (d !! "title"))
           then <[0 := {| cls := TCourse; attrs := d ∪ attrs course7 |}]> (heap w)
           else heap w) ++ [{| cls := TAppointmentGroup; attrs := d |}])) ∧
    r ≠ 0 ∧
    ((if bool_decide (is_Some (d !! "title"))
      then <[0 := {| cls := TCourse; attrs := d ∪ attrs course7 |}]> (heap w)
      else heap w) ++ [{| cls := TAppointmentGroup; attrs := d |}]) !! r
      = Some {| cls := TAppointmentGroup; attrs := d |}.
Proof.
  split; [reflexivity|]. split; [reflexivity|]. split; [reflexivity|].
  apply (@edit_updates_on_title scripted scripted_util 0 group_arg ∅
           (world7 [body {[ "id" := VInt 7 ]}]) course7 (VInt 7)
           {| json := VDict {[ "id" := VInt 7 ]}; next_link := None |}
           [] {[ "id" := VInt 7 ]});
    reflexivity.
Defined.

(** C9 (counterexample).  The guard holds and the request succeeds, with
    the JSON value null as its body: ['title' in None] raises TypeError, no
    AppointmentGroup is returned and the heap holds the receiver alone, as
    before. *)
Lemma edit_after_successful_request_may_return_nothing :
  let w := world7 [inr {| json := VNone; next_link := None |}] in
  let run := @AppointmentGroup.edit scripted scripted_util 0 group_arg ∅ w in
  has_required_key "context_codes" group_arg = true ∧
  trace run.2 =
    [(Build_Request PUT ("appointment_groups/%s", [VInt 7])
        {[ "_kwargs" := VDict (<["appointment_group" := group_arg]> ∅) ]},
      inr {| json := VNone; next_link := None |})] ∧
  run.1 = Raise (TypeError "argument is not iterable") ∧
  heap run.2 = [course7].
Proof. repeat split; reflexivity. Qed.

(** ** C4: list calls are lazy *)

(** C4.  A call of one of the nine list methods of Course makes no request
    and touches nothing: the world after the call is the world before it.
    On a course that has an id the call returns a sequence positioned
    before its first element: nothing is buffered and the initial GET
    request is still pending. *)
Theorem listing_is_lazy `{Util} (l : listing_method) (self : ref) (w : World) :
  (run_listing l self w).2 = w ∧
  ∀ o cid, heap w !! self = Some o → attrs o !! "id" = Some cid →
    ∃ seq req,
      (run_listing l self w).1 = Ok seq ∧
      buffered_items seq = [] ∧
      current_request seq = Some req ∧ verb req = GET ∧ (path req).2 = [cid].
Proof.
  split.
  - destruct l; simpl;
      unfold Course.get_users, Course.get_recent_students, Course.get_enrollments,
        Course.get_assignments, Course.get_quizzes, Course.get_modules,
        Course.get_external_tools, Course.get_pages, Course.list_sections;
      unfold_monad; repeat case_match; simplify_eq; reflexivity.
  - intros o cid Ho Hid.
    destruct l; simpl;
      unfold Course.get_users, Course.get_recent_students, Course.get_enrollments,
        Course.get_assignments, Course.get_quizzes, Course.get_modules,
        Course.get_external_tools, Course.get_pages, Course.list_sections;
      unfold_monad; repeat (rewrite Ho, Hid); do 2 eexists; simpl; done.
Qed.

Lemma listing_is_lazy_witness :
  let w := world7 [] in
  @run_listing scripted scripted_util (LGetQuizzes ∅) 0 w
    = (Ok (Construct TQuiz GET ("courses/%s/quizzes", [VInt 7])
             (Some {[ "course_id" := VInt 7 ]}) ∅), w) ∧
  heap w !! 0 = Some course7 ∧ attrs course7 !! "id" = Some (VInt 7) ∧
  ∃ seq req,
    (@run_listing scripted scripted_util (LGetQuizzes ∅) 0 w).1 = Ok seq ∧
    buffered_items seq = [] ∧
    current_request seq = Some req ∧ verb req = GET ∧ (path req).2 = [VInt 7].
Proof.
  split; [reflexivity|]. split; [reflexivity|]. split; [reflexivity|].
  apply (proj2 (@listing_is_lazy scripted scripted_util (LGetQuizzes ∅) 0 (world7 []))
           course7 (VInt 7) eq_refl eq_refl).
Defined.

(** ** Pagination *)

Lemma Advance_more_fuel `{Requester} (fuel : nat) :
  ∀ seq w out, Advance fuel seq w = Some out → Advance (S fuel) seq w = Some out.
Proof.
  induction fuel as [|fuel IH]; intros seq w out; simpl;
    destruct (buffered_items seq); try done;
    destruct (current_request seq) as [req|]; try done.
  destruct (fetch_page seq req w) as [[seq'|e] w']; [|done].
  apply IH.
Qed.

Lemma ToFiniteCollection_step `{Requester} (fuel : nat) (seq : PaginatedList) (w : World) :
  ToFiniteCollection (S fuel) seq w =
    match Advance (S fuel) seq w with
    | None => None
    | Some (Raise e, seq', w') => Some (Raise e, seq', w')
    | Some (Ok None, seq', w') => Some (Ok [], seq', w')
    | Some (Ok (Some r), seq', w') =>
        match ToFiniteCollection fuel seq' w' with
        | Some (Ok rs, seq'', w'') => Some (Ok (r :: rs), seq'', w'')
        | other => other
        end
    end.
Proof. reflexivity. Qed.

Lemma ToFiniteCollection_more_fuel `{Requester} (fuel : nat) :
  ∀ seq w out,
    ToFiniteCollection fuel seq w = Some out → ToFiniteCollection (S fuel) seq w = Some out.
Proof.
  induction fuel as [|fuel IH]; intros seq w out; [done|].
  rewrite (ToFiniteCollection_step (S fuel)), (ToFiniteCollection_step fuel).
  destruct (Advance (S fuel) seq w) as [[[[[r|]|e] seq'] w']|] eqn:Hadv; [| | |done];
    rewrite (Advance_more_fuel _ _ _ _ Hadv); try done.
  destruct (ToFiniteCollection fuel seq' w') as [out'|] eqn:Hrest; [|done].
  by rewrite (IH _ _ _ Hrest).
Qed.

(** Draining past a buffered element. *)
Lemma drain_buffered `{Requester} (fuel : nat) (seq : PaginatedList) (w : World)
    (r : ref) (rest : list ref) :
  buffered_items seq = r :: rest →
  ToFiniteCollection (S fuel) seq w =
    match ToFiniteCollection fuel (with_buffer seq rest) w with
    | Some (Ok rs, seq', w') => Some (Ok (r :: rs), seq', w')
    | other => other
    end.
Proof. intros Hbuf. simpl. by rewrite Hbuf. Qed.

(** Draining through a page fetch. *)
Lemma drain_fetch `{Requester} (fuel : nat) (seq seq' : PaginatedList) (w w' : World)
    (req : Request) out :
  buffered_items seq = [] →
  current_request seq = Some req →
  fetch_page seq req w = (Ok seq', w') →
  ToFiniteCollection fuel seq' w' = Some out →
  ToFiniteCollection (S fuel) seq w = Some out.
Proof.
  intros Hbuf Hcur Hfetch.
  destruct fuel as [|fuel]; [done|].
  rewrite (ToFiniteCollection_step (S fuel)), (ToFiniteCollection_step fuel).
  replace (Advance (S (S fuel)) seq w) with (Advance (S fuel) seq' w')
    by (cbn [Advance]; by rewrite Hbuf, Hcur, Hfetch).
  destruct (Advance (S fuel) seq' w') as [[[[[r|]|e] seq''] w'']|]; try done.
  destruct (ToFiniteCollection fuel seq'' w'') as [out'|] eqn:Hrest; [|done].
  by rewrite (ToFiniteCollection_more_fuel _ _ _ _ Hrest).
Qed.

Lemma ToFiniteCollection_fuel_le `{Requester} (fuel fuel' : nat) (seq : PaginatedList)
    (w : World) out :
  fuel ≤ fuel' →
  ToFiniteCollection fuel seq w = Some out → ToFiniteCollection fuel' seq w = Some out.
Proof.
  induction 1 as [|fuel' _ IH]; [done|].
  intros Hrun. by apply ToFiniteCollection_more_fuel, IH.
Qed.

(** The buffered elements come out first, in order, with no I/O. *)
Lemma drain_buffer_first `{Requester} (buf : list ref) :
  ∀ (fuel : nat) (seq seq' : PaginatedList) (w w' : World) (rs : list ref),
    buffered_items seq = buf →
    ToFiniteCollection fuel (with_buffer seq []) w = Some (Ok rs, seq', w') →
    ToFiniteCollection (length buf + fuel) seq w = Some (Ok (buf ++ rs), seq', w').
Proof.
  induction buf as [|r rest IH]; intros fuel seq seq' w w' rs Hbuf Hrun.
  - destruct seq as [c extra key cur b]. simpl in Hbuf. by subst b.
  - change (length (r :: rest) + fuel) with (S (length rest + fuel)).
    rewrite (drain_buffered _ _ _ r rest Hbuf).
    by rewrite (IH fuel (with_buffer seq rest) seq' w w' rs eq_refl Hrun).
Qed.

Lemma construct_all_spec `{Requester} (c : resource_type) (items : list (gmap string value)) :
  ∀ w,
    construct_all c items w =
      (Ok (seq (length (heap w)) (length items)),
       {| trace := trace w; remote := remote w;
          heap := heap w ++ ((λ d, {| cls := c; attrs := d |}) <$> items) |}).
Proof.
  induction items as [|item rest IH]; intros w.
  - destruct w. simpl. by rewrite app_nil_r.
  - cbn [construct_all]. unfold mbind, M_bind. cbn [new].
    rewrite IH. simpl. rewrite length_app, Nat.add_1_r, <- app_assoc. done.
Qed.

Lemma fetch_page_spec `{Requester} (seq : PaginatedList) (req : Request) (w : World)
    (resp : Response) (srv : server) (items : list (gmap string value)) :
  respond (remote w) req = (inr resp, srv) →
  decode_page (expected_key seq) (json resp) = Some items →
  fetch_page seq req w =
    (Ok {| element_type := element_type seq;
           extra_context := extra_context seq;
           expected_key := expected_key seq;
           current_request := next_request (verb req) <$> next_link resp;
           buffered_items := List.seq (length (heap w)) (length items) |},
     {| trace := trace w ++ [(req, inr resp)];
        remote := srv;
        heap := heap w ++ (hydrated seq <$> items) |}).
Proof.
  intros Hresp Hdecode. unfold fetch_page, send, request.
  destruct req as [v p kw]. unfold mbind at 1. unfold M_bind at 1. simpl in *.
  rewrite Hresp, Hdecode. unfold mbind, M_bind.
  rewrite construct_all_spec. simpl.
  by rewrite length_fmap, <- list_fmap_compose.
Qed.

Lemma length_concat_pages {A : Type} (pages : list (list A)) :
  length (concat pages) = sum_list_with length pages.
Proof.
  induction pages as [|p rest IH]; [done|].
  simpl. by rewrite length_app, IH.
Qed.

Lemma lookup_fresh_refs {A : Type} (l : list A) :
  ∀ h : list A, (λ r, (h ++ l) !! r) <$> List.seq (length h) (length l) = Some <$> l.
Proof.
  induction l as [|x l IH]; intros h; [done|].
  simpl. rewrite list_lookup_middle by done. f_equal.
  specialize (IH (h ++ [x])).
  rewrite length_app, Nat.add_1_r, <- app_assoc in IH. exact IH.
Qed.

(** Draining a sequence whose buffer is empty, over the pages the server
    still holds for it. *)
Lemma drain_pending `{Requester} (key : option string) (srv srv_end : server)
    (cur : option Request) (pages : list (list (gmap string value))) :
  Pending key srv cur pages srv_end →
  ∀ (sq : PaginatedList) (w : World) (fuel : nat),
    expected_key sq = key → current_request sq = cur → buffered_items sq = [] →
    remote w = srv →
    length (concat pages) + length pages < fuel →
    ∃ log sq',
      ToFiniteCollection fuel sq w =
        Some (Ok (List.seq (length (heap w)) (length (concat pages))), sq',
              {| trace := trace w ++ log; remote := srv_end;
                 heap := heap w ++ (hydrated sq <$> concat pages) |}) ∧
      length log = length pages ∧ terminal sq'.
Proof.
  induction 1 as [srv|srv srv' srv'' req resp items rest Hresp Hdecode _ IH];
    intros sq w fuel Hkey Hcur Hbuf Hsrv Hfuel.
  - exists [], sq. destruct fuel as [|fuel]; [simpl in Hfuel; lia|].
    rewrite ToFiniteCollection_step. cbn [Advance]. rewrite Hbuf, Hcur.
    destruct w; simpl in *; subst. by rewrite !app_nil_r.
  - subst srv key.
    pose proof (fetch_page_spec sq req w resp srv' items Hresp Hdecode) as Hfetch.
    set (sq1 := {| element_type := element_type sq; extra_context := extra_context sq;
                   expected_key := expected_key sq;
                   current_request := next_request (verb req) <$> next_link resp;
                   buffered_items := List.seq (length (heap w)) (length items) |}) in Hfetch.
    set (w1 := {| trace := trace w ++ [(req, inr resp)]; remote := srv';
                  heap := heap w ++ (hydrated sq <$> items) |}) in Hfetch.
    simpl in Hfuel. rewrite length_app in Hfuel.
    destruct fuel as [|fuel]; [lia|].
    destruct (IH (with_buffer sq1 []) w1 (fuel - length items))
      as (log & sq' & Hrun & Hlog & Hterm); try done; [lia|].
    exists ((req, inr resp) :: log), sq'. split; [|split; [simpl; lia|done]].
    apply (drain_fetch fuel sq sq1 w w1 req _ Hbuf Hcur Hfetch).
    apply (drain_buffer_first (List.seq (length (heap w)) (length items))
             _ sq1 sq' w1 _ _ eq_refl) in Hrun.
    rewrite length_seq in Hrun.
    apply (ToFiniteCollection_fuel_le _ fuel) in Hrun; [|lia].
    rewrite Hrun. f_equal. f_equal. f_equal.
    + simpl. rewrite length_app, length_fmap, <- seq_app. by rewrite length_app.
    + simpl. unfold hydrated. simpl. by rewrite <- !app_assoc, fmap_app.
Qed.

(** ** C5: draining yields every page, in order *)

(** C5.  For a collection split across N server pages, draining a fresh
    sequence with enough fuel returns; it yields exactly p1+...+pN
    objects, the i-th being the object hydrated from the i-th item in
    page-then-position order, and adds exactly N round trips to the trace;
    the sequence ends terminal. *)
Theorem drain_yields_all_pages_in_order `{Requester}
    (sq : PaginatedList) (req : Request) (w : World)
    (pages : list (list (gmap string value))) (srv_end : server) (fuel : nat) :
  current_request sq = Some req →
  buffered_items sq = [] →
  Pending (expected_key sq) (remote w) (Some req) pages srv_end →
  sum_list_with length pages + length pages < fuel →
  ∃ refs sq' w',
    ToFiniteCollection fuel sq w = Some (Ok refs, sq', w') ∧
    length refs = sum_list_with length pages ∧
    (λ r, heap w' !! r) <$> refs = Some <$> (hydrated sq <$> concat pages) ∧
    trace w' = trace w ++ new_round_trips w w' ∧
    length (new_round_trips w w') = length pages ∧
    terminal sq'.
Proof.
  intros Hcur Hbuf Hpending Hfuel.
  rewrite <- length_concat_pages in Hfuel |- *.
  destruct (drain_pending _ _ _ _ _ Hpending sq w fuel eq_refl Hcur Hbuf eq_refl Hfuel)
    as (log & sq' & Hrun & Hlog & Hterm).
  eexists _, sq', _. split; [exact Hrun|].
  unfold new_round_trips. simpl. rewrite drop_app_length.
  split; [by rewrite length_seq|].
  split; [|done].
  rewrite <- (length_fmap (hydrated sq) (concat pages)). apply lookup_fresh_refs.
Qed.

(** ** C6: a terminal sequence stays terminal *)

Lemma Advance_terminal `{Requester} (fuel : nat) (sq : PaginatedList) (w : World) :
  terminal sq → Advance fuel sq w = Some (Ok None, sq, w).
Proof. intros [Hcur Hbuf]. destruct fuel; simpl; by rewrite Hbuf, Hcur. Qed.

(** C6.  On a terminal sequence every further [Advance()] answers
    end-of-sequence, raises nothing, and leaves the sequence and the world
    (hence the trace of round trips) as they were, however often it is
    driven and whatever the fuel. *)
Theorem advance_after_terminal `{Requester} (n fuel : nat) (sq : PaginatedList) (w : World) :
  terminal sq →
  redrive n fuel sq w = Some (replicate n (Ok None), sq, w).
Proof.
  intros Hterm. induction n as [|n IH]; [done|].
  cbn [redrive]. by rewrite (Advance_terminal fuel sq w Hterm), IH.
Qed.

(** ** C10: which list endpoints pass the course id *)


(** ** The scenario of the spec: two pages of sizes 2 and 1 *)

Lemma two_pages_pending (key : option string) (req : Request) :
  @Pending scripted key two_pages (Some req) [[quiz 1; quiz 2]; [quiz 3]] [].
Proof.
  eapply (@Pending_page scripted key two_pages [inr page2] [] req page1);
    [reflexivity | reflexivity |].
  eapply (@Pending_page scripted key [inr page2] [] [] _ page2);
    [reflexivity | reflexivity |].
  apply (@Pending_done scripted).
Defined.

Lemma drain_yields_all_pages_in_order_witness :
  let w := world7 two_pages in
  @ToFiniteCollection scripted 6 quizzes7 w =
    Some (Ok [1; 2; 3], drained7,
          @Build_World scripted
            [(Build_Request GET ("courses/%s/quizzes", [VInt 7]) ∅, inr page1);
             (Build_Request GET ("courses/7/quizzes?page=2", []) ∅, inr page2)]
            []
            [course7;
             {| cls := TQuiz; attrs := <["course_id" := VInt 7]> (quiz 1) |};
             {| cls := TQuiz; attrs := <["course_id" := VInt 7]> (quiz 2) |};
             {| cls := TQuiz; attrs := <["course_id" := VInt 7]> (quiz 3) |}]) ∧
  ∃ refs sq' w',
    @ToFiniteCollection scripted 6 quizzes7 w = Some (Ok refs, sq', w') ∧
    length refs = sum_list_with length [[quiz 1; quiz 2]; [quiz 3]] ∧
    (λ r, heap w' !! r) <$> refs
      = Some <$> (hydrated quizzes7 <$> concat [[quiz 1; quiz 2]; [quiz 3]]) ∧
    trace w' = trace w ++ new_round_trips w w' ∧
    length (new_round_trips w w') = length [[quiz 1; quiz 2]; [quiz 3]] ∧
    terminal sq'.
Proof.
  split; [vm_compute; reflexivity|].
  apply (@drain_yields_all_pages_in_order scripted quizzes7
           (Build_Request GET ("courses/%s/quizzes", [VInt 7]) ∅)
           (world7 two_pages) [[quiz 1; quiz 2]; [quiz 3]] [] 6).
  - reflexivity.
  - reflexivity.
  - apply two_pages_pending.
  - simpl. lia.
Defined.

Lemma advance_after_terminal_witness :
  terminal drained7 ∧
  @redrive scripted 3 0 drained7 (world7 two_pages)
    = Some ([Ok None; Ok None; Ok None], drained7, world7 two_pages).
Proof.
  split; [by split|].
  apply (@advance_after_terminal scripted 3 0 drained7 (world7 two_pages)).
  by split.
Defined.


(** ** The methods on concrete inputs *)

(** A course hydrated without an id: the guard passes, reading [self.id]
    raises, and no request is made. *)
Example create_quiz_without_id_makes_no_request :
  @Course.create_quiz scripted scripted_util 0 quiz_arg ∅
    (@Build_World scripted [] [body ∅] [{| cls := TCourse; attrs := ∅ |}])
  = (Raise (AttributeError "id"),
     @Build_World scripted [] [body ∅] [{| cls := TCourse; attrs := ∅ |}]).
Proof. reflexivity. Qed.

(** A response with a title: the receiver takes its attributes, and the
    returned group is a second object. *)
Example edit_with_title_updates_receiver :
  let run := @AppointmentGroup.edit scripted scripted_util 0 group_arg ∅
               (world7 [body {[ "id" := VInt 7; "title" := VStr "Office hours" ]}]) in
  run.1 = Ok 1 ∧
  (heap run.2 !! 0 ≫= λ o, attrs o !! "title") = Some (VStr "Office hours") ∧
  (heap run.2 !! 0 ≫= λ o, attrs o !! "name") = Some (VStr "Logic") ∧
  cls <$> heap run.2 !! 1 = Some TAppointmentGroup.
Proof. repeat split; reflexivity. Qed.

(** A response without a name: [update] returns None and the course keeps
    its attributes. *)
Example update_without_name_keeps_course :
  let run := @Course.update scripted scripted_util 0 ∅ (world7 [body {[ "id" := VInt 8 ]}]) in
  run.1 = Ok VNone ∧ heap run.2 = [course7].
Proof. split; reflexivity. Qed.

(** An empty first page with no next-link: zero elements, one round trip. *)
Example empty_first_page :
  let w := world7 [inr {| json := VList []; next_link := None |}] in
  (λ out, (out.1.1, length (trace out.2))) <$> @ToFiniteCollection scripted 2 quizzes7 w
  = Some (Ok [], 1).
Proof. reflexivity. Qed.

(** The enrollments envelope decodes under its expected key only. *)
Example envelope_decoding :
  decode_page (Some "enrollments") (VDict {[ "enrollments" := VList [VDict (quiz 1)] ]})
    = Some [quiz 1] ∧
  decode_page (Some "enrollments") (VDict {[ "other" := VList [VDict (quiz 1)] ]}) = None.
Proof. split; reflexivity. Qed.

(** A failed fetch raises the requester's error and leaves the sequence at
    the pending request, so that driving it again resumes there. *)
Example failed_fetch_is_resumable :
  (λ out, (out.1.1, out.1.2)) <$>
    @Advance scripted 1 quizzes7 (world7 [inl (BadStatus 503); inr page2])
  = Some (Raise (@RequesterError scripted (BadStatus 503)), quizzes7).
Proof. reflexivity. Qed.

(** * Further properties of the methods *)

Ltac unfold_all_methods :=
  unfold Course.__str__, Course.conclude, Course.delete, Course.update,
    Course.get_user, Course.get_users, Course.enroll_user,
    Course.get_recent_students, Course.preview_html, Course.get_settings,
    Course.update_settings, Course.upload, Course.reset,
    Course.get_enrollments, Course.get_assignment, Course.get_assignments,
    Course.create_assignment, Course.get_quizzes, Course.get_quiz,
    Course.create_quiz, Course.get_modules, Course.get_module,
    Course.create_module, Course.get_external_tool,
    Course.get_external_tools, Course.get_section, Course.show_front_page,
    Course.edit_front_page, Course.get_pages, Course.create_page,
    Course.get_page, Course.list_sections, Course.create_course_section,
    AppointmentGroup.__str__, AppointmentGroup.delete, AppointmentGroup.edit.

Section BudgetLemmas.
Context `{Requester} {X : Type} (log : World → list X).

Lemma grows_by_kept {A : Type} (m : M A) :
  (∀ w, log (m w).2 = log w) → grows_by log 0 m.
Proof. intros Hm w. exists []. by rewrite Hm, app_nil_r. Qed.

Lemma grows_by_weaken {A : Type} (n n' : nat) (m : M A) :
  n ≤ n' → grows_by log n m → grows_by log n' m.
Proof. intros Hle Hm w. destruct (Hm w) as (added & ? & ?). exists added. split; [done|lia]. Qed.

Lemma grows_by_bind {A B : Type} (a b : nat) (m : M A) (f : A → M B) :
  grows_by log a m → (∀ x, grows_by log b (f x)) → grows_by log (a + b) (m ≫= f).
Proof.
  intros Hm Hf w. unfold mbind, M_bind.
  destruct (Hm w) as (added1 & Ht1 & Hn1).
  destruct (m w) as [[x|e] w1]; simpl in *.
  - destruct (Hf x w1) as (added2 & Ht2 & Hn2).
    exists (added1 ++ added2). rewrite Ht2, Ht1, app_assoc, length_app. split; [done|lia].
  - exists added1. split; [done|lia].
Qed.

Lemma grows_by_bind_first {A B : Type} (n : nat) (m : M A) (f : A → M B) :
  grows_by log n m → (∀ x, grows_by log 0 (f x)) → grows_by log n (m ≫= f).
Proof. intros Hm Hf. rewrite <- (Nat.add_0_r n). by apply grows_by_bind. Qed.

Lemma grows_by_bind_rest {A B : Type} (n : nat) (m : M A) (f : A → M B) :
  grows_by log 0 m → (∀ x, grows_by log n (f x)) → grows_by log n (m ≫= f).
Proof. intros Hm Hf. by apply (grows_by_bind 0 n). Qed.

Lemma grows_by_if {A : Type} (n : nat) (b : bool) (m1 m2 : M A) :
  grows_by log n m1 → grows_by log n m2 → grows_by log n (if b then m1 else m2).
Proof. by destruct b. Qed.

Lemma grows_by_ret {A : Type} (a : A) : grows_by log 0 (mret a).
Proof. by apply grows_by_kept. Qed.

Lemma grows_by_raise {A : Type} (e : exn) : grows_by log 0 (raise (A := A) e).
Proof. by apply grows_by_kept. Qed.

Lemma grows_by_getattr (self : ref) (name : string) : grows_by log 0 (getattr self name).
Proof. apply grows_by_kept. intros w. by rewrite getattr_world. Qed.

Lemma grows_by_py_get (b : value) (key : string) (dflt : value) :
  grows_by log 0 (py_get b key dflt).
Proof. apply grows_by_kept. intros w. by destruct b. Qed.

Lemma grows_by_py_update (b : value) (extra : gmap string value) :
  grows_by log 0 (py_update b extra).
Proof. apply grows_by_kept. intros w. by destruct b. Qed.

Lemma grows_by_py_contains (key : string) (b : value) : grows_by log 0 (py_contains key b).
Proof. apply grows_by_kept. intros w. by destruct b. Qed.

End BudgetLemmas.

Lemma request_heap `{Requester} (v : http_method) (p : fmt) (kw : gmap string value) (w : World) :
  heap (request v p kw w).2 = heap w.
Proof. unfold request. by repeat case_match. Qed.

Lemma trace_grows_by_request `{Requester} (v : http_method) (p : fmt) (kw : gmap string value) :
  grows_by trace 1 (request v p kw).
Proof.
  intros w. unfold request. destruct (respond _ _) as [out srv].
  exists [({| verb := v; path := p; params := kw |}, out)]. by destruct out.
Qed.

Lemma trace_grows_by_new `{Requester} (c : resource_type) (b : value) :
  grows_by trace 0 (new c b).
Proof. apply grows_by_kept. intros w. by destruct b. Qed.

Lemma trace_grows_by_set_attributes `{Requester} (self : ref) (b : value) :
  grows_by trace 0 (set_attributes self b).
Proof.
  apply grows_by_kept. intros w. destruct b; try done. simpl. by destruct (heap w !! self).
Qed.

Lemma heap_grows_by_request `{Requester} (v : http_method) (p : fmt) (kw : gmap string value) :
  grows_by heap 0 (request v p kw).
Proof. apply grows_by_kept. intros w. apply request_heap. Qed.

Lemma heap_grows_by_new `{Requester} (c : resource_type) (b : value) :
  grows_by heap 1 (new c b).
Proof.
  intros w. destruct b; simpl;
    first [ by eexists [_] | exists []; rewrite app_nil_r; split; [done|simpl; lia] ].
Qed.

Create HintDb budget.
#[export] Hint Resolve grows_by_ret grows_by_raise grows_by_getattr grows_by_py_get
  grows_by_py_update grows_by_py_contains trace_grows_by_request trace_grows_by_new
  trace_grows_by_set_attributes heap_grows_by_request heap_grows_by_new : budget.

(** Goals [grows_by log 0 _]: every step keeps the log. *)
Ltac keeps :=
  repeat first
    [ apply grows_by_bind_rest; [|intros ?]
    | apply grows_by_if
    | solve [auto with budget] ].

(** Goals [grows_by log 1 _]: the steps before the one that appends keep the
    log, and so do the steps after it. *)
Ltac spends_one :=
  first
    [ solve [apply (grows_by_weaken _ 0 1); [lia | keeps]]
    | solve [auto with budget]
    | apply grows_by_if; spends_one
    | apply grows_by_bind_first; [solve [auto with budget] | intros ?; solve [keeps]]
    | apply grows_by_bind_rest; [solve [keeps] | intros ?; spends_one] ].

Lemma grows_by_returning `{Util} {X A : Type} (log : World → list X) (n : nat)
    (wrap : A → returned) (m : M A) :
  grows_by log n m → grows_by log n (returning wrap m).
Proof.
  intros Hm. unfold returning. apply grows_by_bind_first; [done|].
  intros a. apply grows_by_ret.
Qed.

(** X: at most one round trip. *)
(** Whatever its arguments, the state of the heap and the answers of the
    server, a call of any method other than [upload] adds at most one round
    trip to the trace. *)
Theorem at_most_one_round_trip `{Util} (self : ref) (c : method_call) :
  delegates c = false →
  grows_by trace 1 (invoke self c).
Proof.
  intros Hc.
  destruct c; try discriminate; simpl; apply grows_by_returning;
    unfold_all_methods; spends_one.
Qed.

(** Apart from [Course.update] and [AppointmentGroup.edit] (and [upload],
    which is the uploader's), a call leaves every object of the heap as it
    was: the heap after the call is the heap before it followed by at most
    one newly constructed object. *)
Theorem only_update_and_edit_rewrite_objects `{Util} (self : ref) (c : method_call) :
  delegates c = false →
  rewrites_receiver c = false →
  grows_by heap 1 (invoke self c).
Proof.
  intros Hc Hr.
  destruct c; try discriminate; simpl; apply grows_by_returning;
    unfold_all_methods; spends_one.
Qed.

(** ** Frames *)

Lemma frames_kept `{Requester} {A : Type} (self : ref) (m : M A) :
  (∀ w, heap (m w).2 = heap w) → frames self m.
Proof. intros Hm w. by rewrite Hm. Qed.

Lemma frames_bind `{Requester} {A B : Type} (self : ref) (m : M A) (f : A → M B) :
  frames self m → (∀ x, frames self (f x)) → frames self (m ≫= f).
Proof.
  intros Hm Hf w. unfold mbind, M_bind.
  destruct (Hm w) as [Hlen1 Hkeep1].
  destruct (m w) as [[x|e] w1]; simpl in *; [|done].
  destruct (Hf x w1) as [Hlen2 Hkeep2].
  split; [lia|]. intros r Hr.
  destruct (Hkeep1 r Hr) as [Hcls1 Hsame1].
  destruct (Hkeep2 r ltac:(lia)) as [Hcls2 Hsame2].
  split; [by rewrite Hcls2|]. intros Hne. by rewrite Hsame2, Hsame1.
Qed.

Lemma frames_if `{Requester} {A : Type} (self : ref) (b : bool) (m1 m2 : M A) :
  frames self m1 → frames self m2 → frames self (if b then m1 else m2).
Proof. by destruct b. Qed.

Lemma frames_ret `{Requester} {A : Type} (self : ref) (a : A) : frames self (mret a).
Proof. by apply frames_kept. Qed.

Lemma frames_raise `{Requester} {A : Type} (self : ref) (e : exn) :
  frames self (raise (A := A) e).
Proof. by apply frames_kept. Qed.

Lemma frames_getattr `{Requester} (self obj : ref) (name : string) :
  frames self (getattr obj name).
Proof. apply frames_kept. intros w. by rewrite getattr_world. Qed.

Lemma frames_py_get `{Requester} (self : ref) (b : value) (key : string) (dflt : value) :
  frames self (py_get b key dflt).
Proof. apply frames_kept. intros w. by destruct b. Qed.

Lemma frames_py_update `{Requester} (self : ref) (b : value) (extra : gmap string value) :
  frames self (py_update b extra).
Proof. apply frames_kept. intros w. by destruct b. Qed.

Lemma frames_py_contains `{Requester} (self : ref) (key : string) (b : value) :
  frames self (py_contains key b).
Proof. apply frames_kept. intros w. by destruct b. Qed.

Lemma frames_request `{Requester} (self : ref) (v : http_method) (p : fmt)
    (kw : gmap string value) :
  frames self (request v p kw).
Proof. apply frames_kept. intros w. apply request_heap. Qed.

Lemma frames_new `{Requester} (self : ref) (c : resource_type) (b : value) :
  frames self (new c b).
Proof.
  intros w. destruct b; try by apply frames_kept.
  simpl. rewrite length_app. split; [lia|].
  intros r Hr. by rewrite lookup_app_l.
Qed.

Lemma frames_set_attributes `{Requester} (self : ref) (b : value) :
  frames self (set_attributes self b).
Proof.
  intros w. destruct b; try by apply frames_kept.
  simpl. destruct (heap w !! self) as [o|] eqn:Ho; [|done].
  simpl. rewrite length_insert. split; [done|].
  intros r Hr. destruct (decide (r = self)) as [Heq|Hne].
  - rewrite Heq, list_lookup_insert_eq by (by rewrite <- Heq).
    split; [|done]. symmetry. exact (f_equal (fmap cls) Ho).
  - by rewrite list_lookup_insert_ne.
Qed.

Lemma frames_returning `{Util} {A : Type} (self : ref) (wrap : A → returned) (m : M A) :
  frames self m → frames self (returning wrap m).
Proof.
  intros Hm. unfold returning. apply frames_bind; [done|]. intros a. apply frames_ret.
Qed.

Create HintDb frames.
#[export] Hint Resolve frames_ret frames_raise frames_getattr frames_py_get frames_py_update
  frames_py_contains frames_request frames_new frames_set_attributes : frames.

Ltac framing :=
  repeat first
    [ apply frames_bind; [|intros ?]
    | apply frames_if
    | solve [auto with frames] ].

(** No call removes an object or changes the class of one, and no call
    changes an object other than its receiver: references held by the
    caller stay valid and, the receiver apart, read as before. *)
Theorem methods_keep_other_objects `{Util} (self : ref) (c : method_call) :
  delegates c = false →
  frames self (invoke self c).
Proof.
  intros Hc.
  destruct c; try discriminate; simpl; apply frames_returning;
    unfold_all_methods; framing.
Qed.

(** ** A receiver without an id *)

Lemma getattr_cases `{Requester} (obj : ref) (name : string) (w : World) :
  (∃ v, getattr obj name w = (Ok v, w)) ∨ getattr obj name w = (Raise (AttributeError name), w).
Proof. unfold getattr. repeat case_match; eauto. Qed.

(** On a receiver that was hydrated without an [id], every method fails
    before it reaches the requester: the world is unchanged and the error
    is AttributeError for [id] (for [title] in AppointmentGroup's
    [__str__], which reads the title first) or the RequiredFieldMissing of
    a failed guard. *)
Theorem receiver_without_id_makes_no_request `{Util}
    (self : ref) (c : method_call) (w : World) (o : Obj) :
  heap w !! self = Some o →
  attrs o !! "id" = None →
  (invoke self c w).2 = w ∧
  ((invoke self c w).1 = Raise (AttributeError "id") ∨
   (invoke self c w).1 = Raise (AttributeError "title") ∨
   ∃ msg, (invoke self c w).1 = Raise (RequiredFieldMissing msg)).
Proof.
  intros Ho Hid.
  assert (getattr self "id" w = (Raise (AttributeError "id"), w)) as Hget
    by (unfold getattr; by rewrite Ho, Hid).
  destruct c; simpl; unfold returning; unfold_all_methods;
    unfold mbind, M_bind; try rewrite Hget; simpl; auto.
  - destruct (truthy user_id_type); rewrite Hget; auto.
  - destruct (getattr_cases user "id" w) as [[v ->]| ->]; [rewrite Hget|]; auto.
  - destruct (has_required_key _ _); [rewrite Hget|]; simpl; eauto.
  - destruct (has_required_key _ _); [rewrite Hget|]; simpl; eauto.
  - destruct (has_required_key _ _); [rewrite Hget|]; simpl; eauto.
  - destruct (has_required_key _ _); [rewrite Hget|]; simpl; eauto.
  - destruct (getattr_cases self "title" w) as [[v ->]| ->]; [rewrite Hget|]; auto.
  - destruct (has_required_key _ _); [rewrite Hget|]; simpl; eauto.
Qed.



(** ** get_user *)


(** ** __str__ *)

(** [__str__] succeeds exactly when the object has every attribute its
    format names: id, course_code and name for a Course, title and id for an
    AppointmentGroup. *)
Theorem str_needs_every_attribute `{Requester} (self : ref) (w : World) (s : fmt) :
  (Course.__str__ self w = (Ok s, w) ↔
     ∃ o id course_code name,
       heap w !! self = Some o ∧ attrs o !! "id" = Some id ∧
       attrs o !! "course_code" = Some course_code ∧ attrs o !! "name" = Some name ∧
       s = ("%s %s %s", [id; course_code; name])) ∧
  (AppointmentGroup.__str__ self w = (Ok s, w) ↔
     ∃ o title id,
       heap w !! self = Some o ∧ attrs o !! "title" = Some title ∧
       attrs o !! "id" = Some id ∧ s = ("{} ({})", [title; id])).
Proof.
  split; split.
  - unfold Course.__str__. unfold_monad. intros Hrun.
    repeat case_match; simplify_eq; simpl in *; simplify_eq; eauto 10.
  - intros (o & id & cc & name & Ho & Hid & Hcc & Hname & ->).
    unfold Course.__str__. unfold_monad. by rewrite Ho, Hid, Ho, Hcc, Ho, Hname.
  - unfold AppointmentGroup.__str__. unfold_monad. intros Hrun.
    repeat case_match; simplify_eq; simpl in *; simplify_eq; eauto 10.
  - intros (o & title & id & Ho & Htitle & Hid & ->).
    unfold AppointmentGroup.__str__. unfold_monad. by rewrite Ho, Htitle, Ho, Hid.
Qed.

(** ** What the methods make of the response body *)

Lemma snoc_not_nil_extension {X : Type} (l : list X) (x : X) : l ≠ l ++ [x].
Proof. intros Heq. apply (f_equal length) in Heq. rewrite length_app in Heq. simpl in Heq. lia. Qed.

Lemma grows_by_zero_kept `{Requester} {X A : Type} (log : World → list X) (m : M A) (w : World) :
  grows_by log 0 m → log (m w).2 = log w.
Proof.
  intros Hm. destruct (Hm w) as (added & Hlog & Hlen).
  destruct added; [|simpl in Hlen; lia]. by rewrite Hlog, app_nil_r.
Qed.

(** The shape of every method that makes its one request right after
    reading the id: when the run logged a successful round trip, the
    receiver had an id, the request was built from it, and the run is the
    rest of the method applied to the response. *)
Lemma single_request_inv `{Requester} {A : Type} (self : ref) (v : http_method)
    (mkpath : value → fmt) (kw : value → gmap string value) (k : value → Response → M A)
    (w : World) (req : Request) (resp : Response) :
  (∀ id r, grows_by trace 0 (k id r)) →
  trace ((getattr self "id" ≫= λ id, request v (mkpath id) (kw id) ≫= k id) w).2
    = trace w ++ [(req, inr resp)] →
  ∃ o cid srv,
    heap w !! self = Some o ∧ attrs o !! "id" = Some cid ∧
    req = {| verb := v; path := mkpath cid; params := kw cid |} ∧
    respond (remote w) req = (inr resp, srv) ∧
    (getattr self "id" ≫= λ id, request v (mkpath id) (kw id) ≫= k id) w =
      k cid resp {| trace := trace w ++ [(req, inr resp)]; remote := srv; heap := heap w |}.
Proof.
  intros Hk. unfold mbind, M_bind, getattr, request.
  destruct (heap w !! self) as [o|] eqn:Ho;
    [|intros Htrace; by destruct (snoc_not_nil_extension _ _ Htrace)].
  destruct (attrs o !! "id") as [cid|] eqn:Hid;
    [|intros Htrace; by destruct (snoc_not_nil_extension _ _ Htrace)].
  destruct (respond _ _) as [[e|r] srv] eqn:Hresp; simpl.
  - intros Htrace. simplify_list_eq.
  - set (w1 := {| trace := _; remote := srv; heap := heap w |}).
    intros Htrace. rewrite (grows_by_zero_kept trace (k cid r) w1 (Hk cid r)) in Htrace.
    subst w1. simpl in Htrace. simplify_list_eq.
    exists o, cid, srv. by rewrite Hresp.
Qed.

(** After a successful round trip, [conclude], [delete] and
    [preview_html] leave the heap alone and return the response's value
    under 'conclude', 'delete' and 'html'; when the key is missing they
    return None, None and the empty string, and when the body is not a
    JSON object they raise AttributeError. *)
Theorem readers_default_on_missing_key `{Requester}
    (r : reader) (self : ref) (w : World) (req : Request) (resp : Response) :
  trace (run_reader r self w).2 = trace w ++ [(req, inr resp)] →
  heap (run_reader r self w).2 = heap w ∧
  (run_reader r self w).1 =
    match json resp with
    | VDict d => Ok (default (reader_default r) (d !! reader_key r))
    | _ => Raise (AttributeError "get")
    end.
Proof.
  destruct r; simpl; unfold Course.conclude, Course.delete, Course.preview_html;
    intros Htrace;
    (apply (single_request_inv self _ _ (λ _, _) (λ _ response, py_get (json response) _ _))
       in Htrace as (o & cid & srv & _ & _ & _ & _ & ->); [|intros; keeps]);
    by destruct (json resp).
Qed.

Lemma stamp_course_id_non_object `{Requester} (T : resource_type) (v : http_method)
    (mkpath : value → fmt) (kw : gmap string value) (self : ref) (w : World)
    (req : Request) (resp : Response) :
  trace (stamp_course_id T v mkpath kw self w).2 = trace w ++ [(req, inr resp)] →
  as_object (json resp) = None →
  stamp_course_id T v mkpath kw self w =
    (Raise (AttributeError "update"),
     {| trace := trace w ++ [(req, inr resp)];
        remote := (respond (remote w) req).2;
        heap := heap w |}).
Proof.
  unfold stamp_course_id. intros Htrace Hbody.
  apply (single_request_inv self v mkpath (λ _, kw)
           (λ _ response, getattr self "id" ≫= λ course_id,
              py_update (json response) {[ "course_id" := course_id ]} ≫= new T))
    in Htrace as (o & cid & srv & Ho & Hid & _ & Hresp & Hrun); [|intros; keeps].
  etrans; [exact Hrun|].
  rewrite Hresp. unfold mbind, M_bind, getattr. simpl. rewrite Ho, Hid.
  by destruct (json resp).
Qed.

(** When the server answers one of the nine stamping methods with a body
    that is not a JSON object, the method raises AttributeError at
    [update], after its round trip and before any object is constructed:
    the heap is unchanged. *)
Theorem non_object_body_stops_stamping `{Util}
    (i : injecting_method) (self : ref) (w : World) (req : Request) (resp : Response) :
  trace (run_injecting i self w).2 = trace w ++ [(req, inr resp)] →
  as_object (json resp) = None →
  run_injecting i self w =
    (Raise (AttributeError "update"),
     {| trace := trace w ++ [(req, inr resp)];
        remote := (respond (remote w) req).2;
        heap := heap w |}).
Proof.
  destruct i; simpl; unfold_methods;
    try (destruct (has_required_key _ _);
         [|intros Htrace; by destruct (snoc_not_nil_extension _ _ Htrace)]);
    apply stamp_course_id_non_object.
Qed.

(** [get_settings] and [update_settings] return the decoded body as it
    is, whatever its shape; [get_settings] sends no parameters and
    [update_settings] sends the caller's kwargs as they are, not through
    [combine_kwargs]. *)
Theorem settings_come_back_verbatim `{Util}
    (self : ref) (kwargs : gmap string value) (w : World) (req : Request) (resp : Response) :
  (trace (Course.get_settings self w).2 = trace w ++ [(req, inr resp)] →
   (Course.get_settings self w).1 = Ok (json resp) ∧ params req = ∅) ∧
  (trace (Course.update_settings self kwargs w).2 = trace w ++ [(req, inr resp)] →
   (Course.update_settings self kwargs w).1 = Ok (json resp) ∧ params req = kwargs).
Proof.
  split; unfold Course.get_settings, Course.update_settings; intros Htrace;
    (apply (single_request_inv self _ _ (λ _, _) (λ _ response, mret (json response)))
       in Htrace as (o & cid & srv & _ & _ & -> & _ & ->); [|intros; keeps]);
    done.
Qed.

(** When the server answers [AppointmentGroup.edit] with null, a boolean
    or a number, the membership test ['title' in ...] raises TypeError
    and nothing in the heap changes. *)
Theorem edit_rejects_scalar_bodies `{Util}
    (self : ref) (arg : value) (kwargs : gmap string value) (w : World)
    (req : Request) (resp : Response) :
  trace (AppointmentGroup.edit self arg kwargs w).2 = trace w ++ [(req, inr resp)] →
  match json resp with VNone | VBool _ | VInt _ => True | _ => False end →
  (AppointmentGroup.edit self arg kwargs w).1 = Raise (TypeError "argument is not iterable") ∧
  heap (AppointmentGroup.edit self arg kwargs w).2 = heap w.
Proof.
  unfold AppointmentGroup.edit. intros Htrace Hscalar.
  destruct (has_required_key _ _); [|by destruct (snoc_not_nil_extension _ _ Htrace)].
  apply (single_request_inv self _ _ (λ _, _)
           (λ _ response, py_contains "title" (json response) ≫= λ has_title : bool,
              (if has_title then set_attributes self (json response) else mret ()) ≫= λ _,
              new TAppointmentGroup (json response)))
    in Htrace as (o & cid & srv & _ & _ & _ & _ & ->); [|intros; keeps].
  by destruct (json resp).
Qed.

(** [enroll_user] posts kwargs in which 'enrollment[user_id]' is the id
    of the given user and 'enrollment[type]' the given type, whatever the
    caller had put under these two keys; every other kwarg is passed on as
    given. *)
Theorem enroll_user_sets_its_own_keys `{Util}
    (self user : ref) (enrollment_type : value) (kwargs : gmap string value) (w : World)
    (o u : Obj) (cid uid : value) :
  heap w !! self = Some o → attrs o !! "id" = Some cid →
  heap w !! user = Some u → attrs u !! "id" = Some uid →
  ∃ sent out,
    trace (Course.enroll_user self user enrollment_type kwargs w).2 =
      trace w ++ [({| verb := POST; path := ("courses/%s/enrollments", [cid]);
                      params := pycanvas_combine_kwargs sent |}, out)] ∧
    sent !! "enrollment[user_id]" = Some uid ∧
    sent !! "enrollment[type]" = Some enrollment_type ∧
    ∀ k, k ≠ "enrollment[user_id]" → k ≠ "enrollment[type]" → sent !! k = kwargs !! k.
Proof.
  intros Ho Hid Hu Huid.
  exists (<["enrollment[type]" := enrollment_type]> (<["enrollment[user_id]" := uid]> kwargs)).
  unfold Course.enroll_user. unfold_monad. rewrite Hu, Huid, Ho, Hid.
  destruct (respond _ _) as [out srv]. exists out.
  split; [by destruct out as [e|resp]; simpl; [|destruct (json resp)]|].
  split; [by rewrite lookup_insert_ne, lookup_insert_eq|].
  split; [by rewrite lookup_insert_eq|].
  intros k Hk1 Hk2. by rewrite !lookup_insert_ne.
Qed.


(** ** Where RequiredFieldMissing comes from *)

Lemma never_missing_field_bind `{Requester} {A B : Type} (m : M A) (f : A → M B) :
  never_missing_field m → (∀ x, never_missing_field (f x)) → never_missing_field (m ≫= f).
Proof.
  intros Hm Hf w msg. unfold mbind, M_bind.
  specialize (Hm w msg). destruct (m w) as [[x|e] w1]; simpl in *; [apply Hf|congruence].
Qed.

Lemma never_missing_field_if `{Requester} {A : Type} (b : bool) (m1 m2 : M A) :
  never_missing_field m1 → never_missing_field m2 →
  never_missing_field (if b then m1 else m2).
Proof. by destruct b. Qed.

Lemma never_missing_field_ret `{Requester} {A : Type} (a : A) : never_missing_field (mret a).
Proof. by intros w msg. Qed.

Lemma never_missing_field_getattr `{Requester} (obj : ref) (name : string) :
  never_missing_field (getattr obj name).
Proof. intros w msg. unfold getattr. repeat case_match; simpl; congruence. Qed.

Lemma never_missing_field_request `{Requester} (v : http_method) (p : fmt)
    (kw : gmap string value) :
  never_missing_field (request v p kw).
Proof. intros w msg. unfold request. repeat case_match; simpl; congruence. Qed.

Lemma never_missing_field_py_get `{Requester} (b : value) (key : string) (dflt : value) :
  never_missing_field (py_get b key dflt).
Proof. intros w msg. by destruct b. Qed.

Lemma never_missing_field_py_update `{Requester} (b : value) (extra : gmap string value) :
  never_missing_field (py_update b extra).
Proof. intros w msg. by destruct b. Qed.

Lemma never_missing_field_py_contains `{Requester} (key : string) (b : value) :
  never_missing_field (py_contains key b).
Proof. intros w msg. by destruct b. Qed.

Lemma never_missing_field_set_attributes `{Requester} (self : ref) (b : value) :
  never_missing_field (set_attributes self b).
Proof. intros w msg. destruct b; try done. simpl. by destruct (heap w !! self). Qed.

Lemma never_missing_field_new `{Requester} (c : resource_type) (b : value) :
  never_missing_field (new c b).
Proof. intros w msg. by destruct b. Qed.

Create HintDb blameless.
#[export] Hint Resolve never_missing_field_ret never_missing_field_getattr
  never_missing_field_request never_missing_field_py_get never_missing_field_py_update
  never_missing_field_py_contains never_missing_field_set_attributes
  never_missing_field_new : blameless.

Ltac blameless :=
  repeat first
    [ apply never_missing_field_bind; [|intros ?]
    | apply never_missing_field_if
    | solve [auto with blameless] ].

Lemma returning_raises `{Util} {A : Type} (wrap : A → returned) (m : M A) (w : World) (e : exn) :
  (returning wrap m w).1 = Raise e → (m w).1 = Raise e.
Proof.
  unfold returning, mbind, M_bind. destruct (m w) as [[a|e'] w']; simpl; [discriminate|].
  intros Heq. by injection Heq as ->.
Qed.

(** RequiredFieldMissing has one origin: a call that raises it is one of
    the five guarded methods, called with an argument that fails its
    guard. *)
Theorem missing_field_only_from_guard `{Util}
    (self : ref) (c : method_call) (w : World) (msg : string) :
  delegates c = false →
  (invoke self c w).1 = Raise (RequiredFieldMissing msg) →
  ∃ g arg kwargs, c = guarded_call g arg kwargs ∧
                  has_required_key (required_key g) arg = false.
Proof.
  intros Hc Hraise.
  assert (∀ g arg kwargs,
            (run_guarded g self arg kwargs w).1 = Raise (RequiredFieldMissing msg) →
            has_required_key (required_key g) arg = false) as Hguard.
  { intros g arg kwargs Hrun.
    destruct (has_required_key (required_key g) arg) eqn:Hkey; [|done].
    by destruct (guarded_never_raises_missing_field g self arg kwargs w msg Hkey). }
  destruct c; try discriminate; simpl in Hraise; apply returning_raises in Hraise;
    first
      [ match type of Hraise with
        | (?m _).1 = _ =>
            assert (never_missing_field m) as Hn by (unfold_all_methods; blameless);
            destruct (Hn w msg Hraise)
        end
      | match type of Hraise with
        | (Course.create_assignment _ ?a ?kw _).1 = _ => exists GCreateAssignment, a, kw
        | (Course.create_quiz _ ?a ?kw _).1 = _ => exists GCreateQuiz, a, kw
        | (Course.create_module _ ?a ?kw _).1 = _ => exists GCreateModule, a, kw
        | (Course.create_page _ ?a ?kw _).1 = _ => exists GCreatePage, a, kw
        | (AppointmentGroup.edit _ ?a ?kw _).1 = _ => exists GEdit, a, kw
        end; split; [done|]; by eapply Hguard ].
Qed.


(** ** CourseNickname.remove *)

(** [CourseNickname.remove] addresses the nickname by the [course_id] of
    its receiver: without that attribute it raises AttributeError and makes
    no request; with it, it sends one DELETE for that course and leaves
    the receiver in the heap as it was. *)
Theorem remove_addresses_by_course_id `{Requester} (self : ref) (w : World) (o : Obj) :
  heap w !! self = Some o →
  match attrs o !! "course_id" with
  | None => CourseNickname.remove self w = (Raise (AttributeError "course_id"), w)
  | Some course_id =>
      ∃ out,
        trace (CourseNickname.remove self w).2 =
          trace w ++ [({| verb := DELETE;
                          path := ("users/self/course_nicknames/%s", [course_id]);
                          params := ∅ |}, out)] ∧
        heap (CourseNickname.remove self w).2 !! self = Some o
  end.
Proof.
  intros Ho. unfold CourseNickname.remove. unfold_monad. rewrite Ho.
  destruct (attrs o !! "course_id") as [cid|]; [|done].
  destruct (respond _ _) as [[e|resp] srv]; eexists; simpl; [done|].
  destruct (json resp); simpl; try done.
  split; [done|]. by apply lookup_app_l_Some.
Qed.



Lemma at_most_one_round_trip_witness :
  delegates (Course_create_quiz quiz_arg ∅) = false ∧
  @grows_by scripted _ _ trace 1
    (@invoke scripted scripted_util 0 (Course_create_quiz quiz_arg ∅)).
Proof.
  split; [reflexivity|].
  apply (@at_most_one_round_trip scripted scripted_util 0 (Course_create_quiz quiz_arg ∅)).
  reflexivity.
Defined.

Lemma only_update_and_edit_rewrite_objects_witness :
  delegates Course_reset = false ∧ rewrites_receiver Course_reset = false ∧
  @grows_by scripted _ _ heap 1 (@invoke scripted scripted_util 0 Course_reset).
Proof.
  split; [reflexivity|]. split; [reflexivity|].
  apply (@only_update_and_edit_rewrite_objects scripted scripted_util 0 Course_reset);
    reflexivity.
Defined.

Lemma methods_keep_other_objects_witness :
  delegates (Course_update ∅) = false ∧
  @frames scripted _ 0 (@invoke scripted scripted_util 0 (Course_update ∅)).
Proof.
  split; [reflexivity|].
  apply (@methods_keep_other_objects scripted scripted_util 0 (Course_update ∅)).
  reflexivity.
Defined.

Lemma receiver_without_id_makes_no_request_witness :
  let w := @Build_World scripted [] [body ∅] [{| cls := TCourse; attrs := ∅ |}] in
  heap w !! 0 = Some {| cls := TCourse; attrs := ∅ |} ∧
  (∅ : gmap string value) !! "id" = None ∧
  (@invoke scripted scripted_util 0 Course_reset w).2 = w ∧
  ((@invoke scripted scripted_util 0 Course_reset w).1 = Raise (AttributeError "id") ∨
   (@invoke scripted scripted_util 0 Course_reset w).1 = Raise (AttributeError "title") ∨
   ∃ msg, (@invoke scripted scripted_util 0 Course_reset w).1
            = Raise (RequiredFieldMissing msg)).
Proof.
  split; [reflexivity|]. split; [reflexivity|].
  apply (@receiver_without_id_makes_no_request scripted scripted_util 0 Course_reset
           (@Build_World scripted [] [body ∅] [{| cls := TCourse; attrs := ∅ |}])
           {| cls := TCourse; attrs := ∅ |});
    reflexivity.
Defined.


Lemma readers_default_on_missing_key_witness :
  let w := world7 [body ∅] in
  let req := Build_Request POST ("courses/%s/preview_html", [VInt 7])
               {[ "html" := VStr "<p/>" ]} in
  let resp := {| json := VDict ∅; next_link := None |} in
  trace (@run_reader scripted (RPreviewHtml (VStr "<p/>")) 0 w).2
    = trace w ++ [(req, inr resp)] ∧
  heap (@run_reader scripted (RPreviewHtml (VStr "<p/>")) 0 w).2 = heap w ∧
  (@run_reader scripted (RPreviewHtml (VStr "<p/>")) 0 w).1 = Ok (VStr "").
Proof.
  split; [reflexivity|].
  exact (@readers_default_on_missing_key scripted (RPreviewHtml (VStr "<p/>")) 0
           (world7 [body ∅])
           (Build_Request POST ("courses/%s/preview_html", [VInt 7]) {[ "html" := VStr "<p/>" ]})
           {| json := VDict ∅; next_link := None |} eq_refl).
Defined.

Lemma non_object_body_stops_stamping_witness :
  let w := world7 [array_body] in
  let req := Build_Request GET ("courses/%s/quizzes/%s", [VInt 7; VInt 3]) ∅ in
  let resp := {| json := VList []; next_link := None |} in
  trace (@run_injecting scripted scripted_util (IGetQuiz (VInt 3)) 0 w).2
    = trace w ++ [(req, inr resp)] ∧
  as_object (json resp) = None ∧
  @run_injecting scripted scripted_util (IGetQuiz (VInt 3)) 0 w =
    (Raise (AttributeError "update"),
     @Build_World scripted (trace w ++ [(req, inr resp)])
       (@respond scripted (remote w) req).2 (heap w)).
Proof.
  split; [reflexivity|]. split; [reflexivity|].
  apply (@non_object_body_stops_stamping scripted scripted_util (IGetQuiz (VInt 3)) 0
           (world7 [array_body])
           (Build_Request GET ("courses/%s/quizzes/%s", [VInt 7; VInt 3]) ∅)
           {| json := VList []; next_link := None |});
    reflexivity.
Defined.

Lemma settings_come_back_verbatim_witness :
  let w := world7 [array_body] in
  let kwargs : gmap string value := {[ "hide_final_grades" := VBool true ]} in
  let req := Build_Request PUT ("courses/%s/settings", [VInt 7]) kwargs in
  let resp := {| json := VList []; next_link := None |} in
  trace (@Course.update_settings scripted 0 kwargs w).2 = trace w ++ [(req, inr resp)] ∧
  (@Course.update_settings scripted 0 kwargs w).1 = Ok (VList []) ∧
  params req = kwargs.
Proof.
  split; [reflexivity|].
  apply (proj2 (@settings_come_back_verbatim scripted scripted_util 0
                  {[ "hide_final_grades" := VBool true ]} (world7 [array_body])
                  (Build_Request PUT ("courses/%s/settings", [VInt 7])
                     {[ "hide_final_grades" := VBool true ]})
                  {| json := VList []; next_link := None |})).
  reflexivity.
Defined.

Lemma edit_rejects_scalar_bodies_witness :
  let w := world7 [null_body] in
  let req := Build_Request PUT ("appointment_groups/%s", [VInt 7])
               {[ "_kwargs" := VDict (<["appointment_group" := group_arg]> ∅) ]} in
  let resp := {| json := VNone; next_link := None |} in
  trace (@AppointmentGroup.edit scripted scripted_util 0 group_arg ∅ w).2
    = trace w ++ [(req, inr resp)] ∧
  (@AppointmentGroup.edit scripted scripted_util 0 group_arg ∅ w).1
    = Raise (TypeError "argument is not iterable") ∧
  heap (@AppointmentGroup.edit scripted scripted_util 0 group_arg ∅ w).2 = heap w.
Proof.
  split; [reflexivity|].
  apply (@edit_rejects_scalar_bodies scripted scripted_util 0 group_arg ∅ (world7 [null_body])
           (Build_Request PUT ("appointment_groups/%s", [VInt 7])
              {[ "_kwargs" := VDict (<["appointment_group" := group_arg]> ∅) ]})
           {| json := VNone; next_link := None |});
    [reflexivity | exact I].
Defined.

Lemma enroll_user_sets_its_own_keys_witness :
  let w := @Build_World scripted [] [body ∅] [course7; student] in
  let kwargs : gmap string value :=
    {[ "enrollment[type]" := VStr "ObserverEnrollment"; "enrollment[notify]" := VBool true ]} in
  heap w !! 0 = Some course7 ∧ attrs course7 !! "id" = Some (VInt 7) ∧
  heap w !! 1 = Some student ∧ attrs student !! "id" = Some (VInt 42) ∧
  ∃ sent out,
    trace (@Course.enroll_user scripted scripted_util 0 1 (VStr "StudentEnrollment") kwargs w).2 =
      trace w ++ [(Build_Request POST ("courses/%s/enrollments", [VInt 7]) sent, out)] ∧
    sent !! "enrollment[user_id]" = Some (VInt 42) ∧
    sent !! "enrollment[type]" = Some (VStr "StudentEnrollment") ∧
    ∀ k, k ≠ "enrollment[user_id]" → k ≠ "enrollment[type]" → sent !! k = kwargs !! k.
Proof.
  split; [reflexivity|]. split; [reflexivity|]. split; [reflexivity|]. split; [reflexivity|].
  apply (@enroll_user_sets_its_own_keys scripted scripted_util 0 1 (VStr "StudentEnrollment")
           {[ "enrollment[type]" := VStr "ObserverEnrollment";
              "enrollment[notify]" := VBool true ]}
           (@Build_World scripted [] [body ∅] [course7; student])
           course7 student (VInt 7) (VInt 42));
    reflexivity.
Defined.



Lemma missing_field_only_from_guard_witness :
  let w := world7 [] in
  delegates (Course_create_quiz (VDict ∅) ∅) = false ∧
  (@invoke scripted scripted_util 0 (Course_create_quiz (VDict ∅) ∅) w).1
    = Raise (RequiredFieldMissing Course.required_title_msg) ∧
  ∃ g arg kwargs,
    Course_create_quiz (VDict ∅) ∅ = guarded_call g arg kwargs ∧
    has_required_key (required_key g) arg = false.
Proof.
  split; [reflexivity|]. split; [reflexivity|].
  apply (@missing_field_only_from_guard scripted scripted_util 0
           (Course_create_quiz (VDict ∅) ∅) (world7 []) Course.required_title_msg);
    reflexivity.
Defined.

Lemma remove_addresses_by_course_id_witness :
  let w := @Build_World scripted [] [body ∅] [nickname7] in
  heap w !! 0 = Some nickname7 ∧
  ∃ out,
    trace (@CourseNickname.remove scripted 0 w).2 =
      trace w ++ [(Build_Request DELETE ("users/self/course_nicknames/%s", [VInt 7]) ∅, out)] ∧
    heap (@CourseNickname.remove scripted 0 w).2 !! 0 = Some nickname7.
Proof.
  split; [reflexivity|].
  apply (@remove_addresses_by_course_id scripted 0
           (@Build_World scripted [] [body ∅] [nickname7]) nickname7).
  reflexivity.
Defined.

(** ** A well-formed call reaches the server exactly once *)



Lemma one_request_returning `{Util} {A : Type} (wrap : A → returned) (self : ref)
    (v : http_method) (mkpath : value → fmt) (kw : value → gmap string value)
    (k : value → Response → M A) (w : World) (cid : value) :
  (∀ id r, grows_by trace 0 (k id r)) →
  getattr self "id" w = (Ok cid, w) →
  ∃ req out,
    trace (returning wrap
             (getattr self "id" ≫= λ id, request v (mkpath id) (kw id) ≫= k id) w).2 =
      trace w ++ [(req, out)].
Proof.
  intros Hk Hget. unfold returning.
  unfold mbind at 1 2. unfold M_bind at 1 2. rewrite Hget.
  unfold mbind, M_bind, request.
  destruct (respond _ _) as [[e|r] srv]; eexists _, _; [done|].
  pose proof (grows_by_zero_kept trace (k cid r)
                {| trace := trace w ++ [({| verb := v; path := mkpath cid; params := kw cid |},
                                         inr r)];
                   remote := srv; heap := heap w |} (Hk cid r)) as Hkeep.
  destruct (k cid r _) as [[a|e] w']; simpl in *; exact Hkeep.
Qed.

(** A call of a requesting method whose guard passes, on a receiver (and,
    for [enroll_user], a user) that has an id, makes exactly one round
    trip, whatever the server answers. *)
Theorem well_formed_call_makes_one_request `{Util}
    (self : ref) (c : method_call) (w : World) :
  makes_request c = true →
  passes_guard c = true →
  objects_have_ids self c w →
  ∃ req out, trace (invoke self c w).2 = trace w ++ [(req, out)].
Proof.
  intros Hm Hg [[cid Hid] Huser].
  destruct c; try discriminate; simpl in Hg |- *; unfold_all_methods; try rewrite Hg;
    try (eapply one_request_returning; [intros; keeps | exact Hid]).
  - unfold returning, mbind, M_bind, mret, M_ret.
    destruct (truthy user_id_type); rewrite Hid; unfold request;
      (destruct (respond _ _) as [[e|r] srv]; eexists _, _; [done|]);
      by destruct (json r).
  - destruct Huser as [uid Hu].
    unfold returning, mbind, M_bind. rewrite Hu, Hid. unfold request.
    destruct (respond _ _) as [[e|r] srv]; eexists _, _; [done|].
    by destruct (json r).
Qed.

Lemma well_formed_call_makes_one_request_witness :
  let w := world7 [array_body] in
  makes_request Course_reset = true ∧ passes_guard Course_reset = true ∧
  @objects_have_ids scripted 0 Course_reset w ∧
  ∃ req out, trace (@invoke scripted scripted_util 0 Course_reset w).2 = trace w ++ [(req, out)].
Proof.
  split; [reflexivity|]. split; [reflexivity|].
  assert (@objects_have_ids scripted 0 Course_reset (world7 [array_body])) as Hids
    by (split; [by exists (VInt 7)|exact I]).
  split; [exact Hids|].
  exact (@well_formed_call_makes_one_request scripted scripted_util 0 Course_reset
           (world7 [array_body]) eq_refl eq_refl Hids).
Defined.
